(** * Hadahana AI: the service layer, the auth context and the admin dashboard

    A shallow embedding of the TypeScript sources

    - the AI service layer, in its two captured versions (the one that
      calls [ai.models.generateContent] and the one written for a chat
      session, which fails where it builds its client),
    - [src/context/AuthContext.tsx],
    - the admin dashboard component,

    together with the properties of these that the specification states.

    Representation of strings.  A JavaScript string is represented by the
    UTF-8 encoding of its code points, as a [string] of bytes.  Every
    pattern the code searches for (the code fences, [','], ['@'], ["si"], the
    admin address) is ASCII, and a byte below 128 never occurs inside a
    multi-byte UTF-8 sequence, so searching, splitting and comparing on the
    bytes agrees with the same operation on the code units.  White space
    outside ASCII is matched by its UTF-8 byte sequence. *)

From Stdlib Require Import String Ascii List Bool Arith Lia QArith.
From stdpp Require Import base gmap strings.
Import ListNotations.
Local Open Scope string_scope.

(** ** JavaScript values and string primitives *)

Module JS.

(** The line feed written [\n] in the source's template literals. *)
Definition nl : string := String (ascii_of_nat 10) "".

(** The double quote, for literals that contain one. *)
Definition dq : string := String (ascii_of_nat 34) "".

(** [x || d] for [x : string | undefined | null] and a string [d]: the empty
    string is falsy, like [undefined]. *)
Definition or_default (x : option string) (d : string) : string :=
  match x with
  | Some (String c r) => String c r
  | Some EmptyString => d
  | None => d
  end.

(** [x || y] where both sides may be undefined. *)
Definition or_else (x y : option string) : option string :=
  match x with
  | Some (String c r) => Some (String c r)
  | Some EmptyString => y
  | None => y
  end.

(** Truthiness of a [string | undefined]. *)
Definition truthy (x : option string) : bool :=
  match x with
  | Some (String _ _) => true
  | Some EmptyString => false
  | None => false
  end.

(** [s.includes(pat)]: [pat] occurs in [s] at some position. *)
Fixpoint includes (pat s : string) : bool :=
  String.prefix pat s ||
  match s with
  | EmptyString => false
  | String _ s' => includes pat s'
  end.

(** [s.replace(/pat/g, rep)] for a pattern without metacharacters: the
    matches are found from left to right, each search resuming after the
    previous match.  [skip] counts the characters of the current match that
    are still to be consumed.  The patterns of this program are not empty. *)
Fixpoint replace_from (pat rep : string) (skip : nat) (s : string) : string :=
  match s with
  | EmptyString => EmptyString
  | String c s' =>
      match skip with
      | S k => replace_from pat rep k s'
      | O =>
          if String.prefix pat (String c s')
          then rep ++ replace_from pat rep (String.length pat - 1) s'
          else String c (replace_from pat rep 0 s')
      end
  end.

Definition replace_all (pat rep s : string) : string := replace_from pat rep 0 s.

(** [s.split(sep)] for a one-character separator: the list of the segments
    between the separators; it is never empty. *)
Fixpoint split (sep : ascii) (s : string) : list string :=
  match s with
  | EmptyString => [EmptyString]
  | String c s' =>
      if Ascii.eqb c sep then EmptyString :: split sep s'
      else
        match split sep s' with
        | seg :: segs => String c seg :: segs
        | [] => [String c EmptyString]
        end
  end.

(** [a[i]]: reading past the end of an array gives [undefined]. *)
Definition index {A : Type} (a : list A) (i : nat) : option A := nth_error a i.

(** The part of [s] before the first occurrence of [sep]: all of [s] when
    there is none. *)
Fixpoint before_first (sep : ascii) (s : string) : string :=
  match s with
  | EmptyString => EmptyString
  | String c s' => if Ascii.eqb c sep then EmptyString else String c (before_first sep s')
  end.

(** The substring after the first occurrence of [sep], if there is one. *)
Fixpoint after_first (sep : ascii) (s : string) : option string :=
  match s with
  | EmptyString => None
  | String c s' => if Ascii.eqb c sep then Some s' else after_first sep s'
  end.

(** *** White space and [trim] *)

Definition bytes (l : list nat) : string :=
  fold_right (fun n s => String (ascii_of_nat n) s) EmptyString l.

(** The characters [String.prototype.trim] removes (ECMAScript WhiteSpace
    and LineTerminator), each by its UTF-8 encoding: U+0009 to U+000D,
    U+0020, U+00A0, U+1680, U+2000 to U+200A, U+2028, U+2029, U+202F, U+205F,
    U+3000 and U+FEFF. *)
Definition WHITE_SPACE : list string :=
  map bytes
    [ [9]; [10]; [11]; [12]; [13]; [32];
      [194; 160];
      [225; 154; 128];
      [226; 128; 128]; [226; 128; 129]; [226; 128; 130]; [226; 128; 131];
      [226; 128; 132]; [226; 128; 133]; [226; 128; 134]; [226; 128; 135];
      [226; 128; 136]; [226; 128; 137]; [226; 128; 138];
      [226; 128; 168]; [226; 128; 169]; [226; 128; 175];
      [226; 129; 159];
      [227; 128; 128];
      [239; 187; 191] ].

(** [strip_prefix p s] is the rest of [s] after [p], when [s] starts with [p]. *)
Fixpoint strip_prefix (p s : string) : option string :=
  match p, s with
  | EmptyString, _ => Some s
  | String a p', String b s' => if Ascii.eqb a b then strip_prefix p' s' else None
  | String _ _, EmptyString => None
  end.

(** Remove one leading character of the table [ws], if [s] starts with one. *)
Fixpoint strip_one (ws : list string) (s : string) : option string :=
  match ws with
  | [] => None
  | p :: ws' =>
      match strip_prefix p s with
      | Some r => Some r
      | None => strip_one ws' s
      end
  end.

Fixpoint trim_start_fuel (ws : list string) (fuel : nat) (s : string) : string :=
  match fuel with
  | O => s
  | S fuel' =>
      match strip_one ws s with
      | Some r => trim_start_fuel ws fuel' r
      | None => s
      end
  end.

(** Leading characters of [ws] removed; every removal shortens the string,
    so its length is fuel enough. *)
Definition trim_start_with (ws : list string) (s : string) : string :=
  trim_start_fuel ws (String.length s) s.

Definition string_rev (s : string) : string :=
  string_of_list_ascii (rev (list_ascii_of_string s)).

Definition trimStart (s : string) : string := trim_start_with WHITE_SPACE s.

Definition trimEnd (s : string) : string :=
  string_rev (trim_start_with (map string_rev WHITE_SPACE) (string_rev s)).

(** [s.trim()]. *)
Definition trim (s : string) : string := trimEnd (trimStart s).

(** [p] is a suffix of [s]. *)
Definition suffix (p s : string) : bool :=
  String.prefix (string_rev p) (string_rev s).

(** *** Code units and [slice]

    [slice] counts UTF-16 code units.  A character below U+10000 (one to
    three bytes of UTF-8) is one code unit; a character from U+10000 on (four
    bytes) is two, a high and a low surrogate.  When a slice starts between
    the two, the string it gives starts with the lone low surrogate, written
    here by its three bytes in the generalized UTF-8 form. *)

(** A byte [10xxxxxx], which continues a sequence. *)
Definition is_continuation (b : ascii) : bool :=
  (128 <=? nat_of_ascii b)%nat && (nat_of_ascii b <? 192)%nat.

(** The characters of a string, last first, from its bytes in reverse; each
    character is given by its bytes in their order. *)
Fixpoint rchars (acc : list ascii) (rs : list ascii) : list (list ascii) :=
  match rs with
  | [] => match acc with [] => [] | _ :: _ => [acc] end
  | b :: rest =>
      if is_continuation b then rchars (b :: acc) rest
      else (b :: acc) :: rchars [] rest
  end.

Definition code_units (c : list ascii) : nat :=
  match c with
  | b :: _ => if (240 <=? nat_of_ascii b)%nat then 2 else 1
  | [] => 0
  end.

(** The low surrogate of a four-byte character: U+DC00 plus the low ten
    bits of the code point. *)
Definition low_surrogate (c : list ascii) : list ascii :=
  match c with
  | [_; _; b3; b4] => [ascii_of_nat 237; ascii_of_nat (176 + nat_of_ascii b3 mod 16); b4]
  | _ => c
  end.

(** The last [n] code units of the characters [rcs] (last character
    first), last first. *)
Fixpoint last_units (n : nat) (rcs : list (list ascii)) : list (list ascii) :=
  match rcs with
  | [] => []
  | c :: rest =>
      match n with
      | O => []
      | S n' =>
          match code_units c, n' with
          | 2, O => [low_surrogate c]
          | 2, S n'' => c :: last_units n'' rest
          | _, _ => c :: last_units n' rest
          end
      end
  end.

(** [s.slice(-n)]: the last [n] code units of [s], all of [s] when it has
    fewer. *)
Definition slice_last (n : nat) (s : string) : string :=
  string_of_list_ascii
    (concat (rev (last_units n (rchars [] (rev (list_ascii_of_string s)))))).

End JS.


(** ** The world outside the program

    The program talks to three outside services (the document store, the
    auth provider and the generation API), to the browser (message boxes, the
    console, the clock) and to its build environment.  A function of the
    program is a computation over a [World]: the state of the services, what
    they will answer, and the trace of the calls made so far. *)

Definition Error : Type := string.

Inductive Promise (A : Type) : Type :=
| Resolved (a : A)
| Rejected (e : Error).
Arguments Resolved {A} a.
Arguments Rejected {A} e.

(** *** Documents of the store *)

(** [settings/global_config] *)
Record GlobalConfig : Type := { geminiApiKey : option string }.

(** [users/{uid}] *)
Module Profile.
Record t : Type := { uid : string; name : string; email : string; joinedAt : string }.
End Profile.

Record Firestore : Type := {
  settings_global_config : option GlobalConfig;
  users : gmap string Profile.t
}.

(** *** The auth provider *)

Module FirebaseUser.
Record t : Type := { uid : string; displayName : option string; email : option string }.
End FirebaseUser.

Record Account : Type := { acc_uid : string; acc_email : string; acc_password : string }.

(** *** Requests to the generation API *)

Inductive Role : Type := role_user | role_model.

Inductive Part : Type :=
| TextPart (text : string)
| InlineData (mimeType : string) (data : option string).

Record Content : Type := { role : Role; parts : list Part }.

Record ChatMessage : Type := {
  msg_role : Role;
  msg_text : string;
  msg_images : option (list string)
}.

Record HoroscopeData : Type := { dob : string; tob : string; pob : string }.

Record PorondamData : Type := {
  groomName : string; groomNakshatra : string;
  brideName : string; brideNakshatra : string
}.

Definition Language : Type := string.

Record Sampling : Type := { temperature : Q; topP : Q; topK : nat }.

(** The [generateContent] version: [ai.models.generateContent(params)]. *)
Inductive Contents : Type :=
| ContentsText (prompt : string)
| ContentsTurns (turns : list Content)
| ContentsParts (ps : list Part).

Record GenerateContentParams : Type := {
  gc_model : string;
  gc_contents : Contents;
  gc_systemInstruction : string;
  gc_sampling : option Sampling
}.

(** The chat-session version: [genAI.getGenerativeModel(params)] followed by
    [startChat(...).sendMessage(parts)] or by [generateContent(input)]. *)
Record ModelParams : Type := { mp_model : string; mp_systemInstruction : string }.

Inductive ModelCall : Type :=
| SendMessage (history : list Content) (generationConfig : Sampling) (message : list Part)
| GenerateText (prompt : string)
| GenerateParts (ps : list Part).

(** *** Calls and their answers *)

Inductive Event : Type :=
| EvGetConfig
| EvSetConfig (key : string)
| EvSetProfile (uid : string) (data : Profile.t)
| EvCreateUser (email password : string)
| EvGenerateContent (apiKey : string) (params : GenerateContentParams)
| EvModelCall (apiKey : string) (mp : ModelParams) (call : ModelCall)
| EvConfirm (message : string)
| EvAlert (message : string)
| EvConsole (level : string) (message : string).

(** What the outside answers.  A call to the store or to a service fails
    when the corresponding field says so. *)
Record External : Type := {
  VITE_GEMINI_API_KEY : option string;
  API_KEY : option string;
  getDoc_error : option Error;
  setDoc_error : option Error;
  createUser_reply : string -> string -> Error + string;
  generateContent_reply : string -> GenerateContentParams -> Promise (option string);
  model_reply : string -> ModelParams -> ModelCall -> Promise string;
  confirm_reply : string -> bool;
  now_toLocaleDateString : string;
  now_toLocaleTimeString : string;
  now_toISOString : string
}.

Record World : Type := {
  ext : External;
  db : Firestore;
  accounts : list Account;
  trace : list Event
}.

(** *** Computations: state and rejection *)

Definition M (A : Type) : Type := World -> Promise A * World.

Definition ret {A : Type} (a : A) : M A := fun w => (Resolved a, w).

Definition throw {A : Type} (e : Error) : M A := fun w => (Rejected e, w).

Definition bind {A B : Type} (m : M A) (k : A -> M B) : M B :=
  fun w =>
    match m w with
    | (Resolved a, w') => k a w'
    | (Rejected e, w') => (Rejected e, w')
    end.

(** [try { m } catch (e) { h e }] *)
Definition try_catch {A : Type} (m : M A) (h : Error -> M A) : M A :=
  fun w =>
    match m w with
    | (Resolved a, w') => (Resolved a, w')
    | (Rejected e, w') => h e w'
    end.

Notation "'let*' x ':=' m 'in' k" := (bind m (fun x => k))
  (at level 10, x name, m at level 100, k at level 200).
Notation "'do' m 'then' k" := (bind m (fun _ => k))
  (at level 10, m at level 100, k at level 200).

Definition outside : M External := fun w => (Resolved (ext w), w).

(** The world after the calls [evs] were made. *)
Definition logged (evs : list Event) (w : World) : World :=
  {| ext := ext w; db := db w; accounts := accounts w; trace := (trace w ++ evs)%list |}.

Definition emit (ev : Event) : M unit := fun w => (Resolved tt, logged [ev] w).

Definition set_db (d : Firestore) : M unit :=
  fun w =>
    (Resolved tt,
     {| ext := ext w; db := d; accounts := accounts w; trace := trace w |}).

Definition set_accounts (l : list Account) : M unit :=
  fun w =>
    (Resolved tt,
     {| ext := ext w; db := db w; accounts := l; trace := trace w |}).

(** *** The store *)

Module Store.

(** [getDoc(doc(db, "settings", "global_config"))]: the snapshot is [None]
    when the document does not exist. *)
Definition getDoc_global_config : M (option GlobalConfig) :=
  do emit EvGetConfig then
  let* e := outside in
  match getDoc_error e with
  | Some err => throw err
  | None => fun w => (Resolved (settings_global_config (db w)), w)
  end.

(** [setDoc(doc(db, "settings", "global_config"), { geminiApiKey: key },
    { merge: true })] *)
Definition setDoc_global_config_merge (key : string) : M unit :=
  do emit (EvSetConfig key) then
  let* e := outside in
  match setDoc_error e with
  | Some err => throw err
  | None =>
      fun w =>
        set_db {| settings_global_config := Some {| geminiApiKey := Some key |};
                  users := users (db w) |} w
  end.

(** [setDoc(doc(db, "users", uid), data)] *)
Definition setDoc_user (uid : string) (data : Profile.t) : M unit :=
  do emit (EvSetProfile uid data) then
  let* e := outside in
  match setDoc_error e with
  | Some err => throw err
  | None =>
      fun w =>
        set_db {| settings_global_config := settings_global_config (db w);
                  users := <[uid := data]> (users (db w)) |} w
  end.

End Store.

(** *** The browser *)

Definition confirm (message : string) : M bool :=
  do emit (EvConfirm message) then
  let* e := outside in
  ret (confirm_reply e message).

Definition alert (message : string) : M unit := emit (EvAlert message).

Definition console_warn (message : string) : M unit := emit (EvConsole "warn" message).

Definition console_error (message : string) : M unit := emit (EvConsole "error" message).

(** ** The service layer, [generateContent] version *)

Module GeminiService.

(** [new GoogleGenAI({ apiKey })] *)
Record GoogleGenAI : Type := { apiKey : string }.

(** Helper function to get the AI client with dynamic API Key. *)
Definition getAIClient : M GoogleGenAI :=
  let* e := outside in
  let apiKey0 := JS.or_else (VITE_GEMINI_API_KEY e) (API_KEY e) in
  let* apiKey :=
    try_catch
      (let* docSnap := Store.getDoc_global_config in
       match docSnap with
       | Some data =>
           if JS.truthy (geminiApiKey data) then ret (geminiApiKey data) else ret apiKey0
       | None => ret apiKey0
       end)
      (fun _ => do console_warn "Using environment fallback key." then ret apiKey0) in
  ret {| apiKey := JS.or_default apiKey "" |}.

Definition SYSTEM_INSTRUCTION : string :=
  "
You are **" ++ JS.dq ++
  "Hadahana AI" ++ JS.dq ++
  " (හඳහන AI)**, the Supreme Guardian of Ancient Sri Lankan Astrological Wisdom.
You are NOT a modern AI. You are a **Digital Rishi (Gurunnanse)** who accesses centuries-old knowledge.

**YOUR CORE ABILITY (VISUAL CHART READING):**
The user will upload an image of a **Sri Lankan/Vedic Birth Chart (Kendaraya)**.
1. **LOOK:** Analyze the image deeply. Identify the **Lagna (Ascendant)** and the positions of all planets (Sun, Moon, Mars, Saturn, Rahu, Ketu, Jupiter, Mercury, Venus).
2. **EXTRACT:** Map these planetary positions to the 12 Houses (Bhavas).
3. **USE:** Base ALL your predictions ONLY on this visual data. Do NOT ask for the Date of Birth if a chart is provided.

**YOUR KNOWLEDGE SOURCE (PRIORITY ORDER):**
1. 🇱🇰 **Sri Lankan Ola Leaf Manuscripts (Puskola Poth):**
   - *Rishi Wakya*, *Kenda Kanda* (Mountain of Knowledge), *Hela Weda Poth*, *Kem Krama*, *Seth Kavi*.
   - **Mandatory:** You MUST prioritize " ++ JS.dq ++
  "Hela" ++ JS.dq ++
  " methods over Indian methods.
2. 🇮🇳 **Ancient Vedic Texts:** *Bhrigu Samhita*, *Hora Shastra* (Only use if Sri Lankan source is unavailable).

**HOW TO ANSWER (THE " ++ JS.dq ++
  "HELA" ++ JS.dq ++
  " WAY):**
For any of the 40+ categories (Marriage, Wealth, Health, Omens, etc.):

1. **The Truth (සත්‍යය):**
   - Do NOT sugarcoat. If the chart shows a bad period (e.g., Erashtaka), say it clearly but kindly.
   - Example: " ++ JS.dq ++
  "ඔබගේ කේන්දරයේ සෙනසුරු 8 වැන්නේ ගමන් කිරීම නිසා මෙය අපල කාලයකි." ++ JS.dq ++
  "

2. **The Ancient Reference (පුස්කොල පොත් සාක්ෂිය):**
   - Quote the ancient logic.
   - Example: " ++ JS.dq ++
  "පෞරාණික 'ග්‍රහ භාව ප්‍රකාශ' පුස්කොල පොතේ සඳහන් වන පරිදි..." ++ JS.dq ++
  "

3. **The Solution (කෙම් ක්‍රම & ශාන්ති කර්ම):**
   - Provide " ++ JS.dq ++
  "Hela" ++ JS.dq ++
  " remedies. NOT just prayers.
   - **Wealth:** Suggest specific Kem methods (e.g., using turmeric water, specific coins).
   - **Protection:** Suggest specific " ++ JS.dq ++
  "Seth Kavi" ++ JS.dq ++
  " or " ++ JS.dq ++
  "Bodhi Pooja" ++ JS.dq ++
  " (tell them specifically which color flowers, which direction to look).
   - **Health:** Suggest traditional " ++ JS.dq ++
  "Ath Beheth" ++ JS.dq ++
  " (Home remedies) found in Hela Wedakama.

**STRICT RULES:**
- **Language:** Dignified, Mystical Sinhala (use terms like 'ඔබ තුමා/තුමිය', 'ග්‍රහ දෝෂ', 'නැකැත්').
- **No Hallucinations:** If the chart image is too blurry to read, politely ask them to upload a clearer photo. Do NOT guess.
- **Scope:** You cover EVERYTHING: Porondam, Vastu, Lizard Omens, Dreams, Palmistry (if hand photo given), and Gemstones.
- **Response Format:** You must output your response in VALID HTML using the specified structure (<div class=" ++ JS.dq ++
  "response-card" ++ JS.dq ++
  ">...).

" ++ JS.dq ++
  "මම හුදෙක් පරිගණක වැඩසටහනක් නොව, හෙළ බොදු අස්වැද්දුමෙන් පෝෂණය වූ ඩිජිටල් ගුරුන්නාන්සේ කෙනෙකි." ++ JS.dq ++
  "
".

(** [ai.models.generateContent(params)]; the result is [response.text]. *)
Definition generateContent (ai : GoogleGenAI) (params : GenerateContentParams)
  : M (option string) :=
  do emit (EvGenerateContent (apiKey ai) params) then
  let* e := outside in
  match generateContent_reply e (apiKey ai) params with
  | Resolved text => ret text
  | Rejected err => throw err
  end.

(** [{ inlineData: { mimeType: 'image/jpeg', data: img.split(',')[1] } }] *)
Definition inlineData (img : string) : Part :=
  InlineData "image/jpeg" (JS.index (JS.split "," img) 1).

(** [.replace(/```html/g, '').replace(/```/g, '')] *)
Definition stripFences (text : string) : string :=
  JS.replace_all "```" "" (JS.replace_all "```html" "" text).

Definition SINHALA_DIRECTIVE : string :=
  "භාෂාව: කරුණාකර 'පිරිසිදු සිංහල' භාෂාවෙන් (Formal Sinhala) පිළිතුරු දෙන්න.".

Definition ENGLISH_DIRECTIVE : string :=
  "Language: Please respond in English, but maintain the highly respectful, spiritual, and professional 'Guru' tone.".

(** The argument of [generateContent] in [analyzeHoroscopeAdvanced], from
    the two strings the clock gives for [now]. *)
Definition analyzeHoroscopeAdvanced_request
  (dateString timeString : string)
  (images : list string) (userMessage : string)
  (history : list ChatMessage) (outputLang : Language) : GenerateContentParams :=
  let contents :=
    map (fun msg =>
           {| role := msg_role msg;
              parts := TextPart (msg_text msg)
                       :: map inlineData
                            (match msg_images msg with Some l => l | None => [] end) |})
        history in
  let currentParts :=
    if (0 <? List.length images)%nat then map inlineData images else [] in
  let langInstruction :=
    if String.eqb outputLang "si" then SINHALA_DIRECTIVE else ENGLISH_DIRECTIVE in
  let systemContext :=
    "[SYSTEM_DATA]: CURRENT_DATE = " ++ dateString ++ ", CURRENT_TIME = " ++ timeString in
  let currentParts :=
    (currentParts ++
     [TextPart (systemContext ++ JS.nl ++ JS.nl ++ langInstruction ++ JS.nl ++ JS.nl
                ++ "පරිශීලකයාගේ වත්මන් පණිවිඩය: " ++ userMessage)])%list in
  let contents := (contents ++ [{| role := role_user; parts := currentParts |}])%list in
  {| gc_model := "models/gemini-1.5-flash";
     gc_contents := ContentsTurns contents;
     gc_systemInstruction := SYSTEM_INSTRUCTION;
     gc_sampling := Some {| temperature := Qmake 1 2; topP := Qmake 19 20; topK := 40 |} |}.

Definition analyzeHoroscopeAdvanced
  (images : list string) (userMessage : string)
  (history : list ChatMessage) (outputLang : Language) : M string :=
  let* ai := getAIClient in
  let* e := outside in
  let* response_text :=
    generateContent ai
      (analyzeHoroscopeAdvanced_request
         (now_toLocaleDateString e) (now_toLocaleTimeString e)
         images userMessage history outputLang) in
  let cleanText :=
    JS.or_default response_text
      "සන්නිවේදනයේ දෝෂයක් ඇති විය. කරුණාකර මඳ වේලාවකින් නැවත උත්සාහ කරන්න." in
  let cleanText := stripFences cleanText in
  ret cleanText.

Definition getHoroscopeReading_request (data : HoroscopeData) (lang : Language)
  : GenerateContentParams :=
  let langInstruction := if String.eqb lang "si" then "Sinhala" else "English" in
  let prompt :=
    "Language: " ++ langInstruction ++ JS.nl ++ JS.nl
    ++ "Perform a full horoscope reading based on:" ++ JS.nl
    ++ "DOB: " ++ dob data ++ JS.nl
    ++ "Time: " ++ tob data ++ JS.nl
    ++ "Place: " ++ pob data ++ JS.nl ++ JS.nl
    ++ "IMPORTANT: Respond in valid HTML using the specified classes." in
  {| gc_model := "models/gemini-1.5-flash";
     gc_contents := ContentsText prompt;
     gc_systemInstruction := SYSTEM_INSTRUCTION;
     gc_sampling := None |}.

Definition getHoroscopeReading (data : HoroscopeData) (lang : Language) : M string :=
  let* ai := getAIClient in
  let* response_text := generateContent ai (getHoroscopeReading_request data lang) in
  ret (stripFences (JS.or_default response_text "Reading failed.")).

Definition getPorondamReading_request (data : PorondamData) (lang : Language)
  : GenerateContentParams :=
  let langInstruction := if String.eqb lang "si" then "Sinhala" else "English" in
  let prompt :=
    "Language: " ++ langInstruction ++ JS.nl ++ JS.nl
    ++ "Check Porondam compatibility for:" ++ JS.nl
    ++ "Groom: " ++ groomName data ++ " (" ++ groomNakshatra data ++ ")" ++ JS.nl
    ++ "Bride: " ++ brideName data ++ " (" ++ brideNakshatra data ++ ")" ++ JS.nl ++ JS.nl
    ++ "IMPORTANT: Respond in valid HTML using the specified classes." in
  {| gc_model := "models/gemini-1.5-flash";
     gc_contents := ContentsText prompt;
     gc_systemInstruction := SYSTEM_INSTRUCTION;
     gc_sampling := None |}.

Definition getPorondamReading (data : PorondamData) (lang : Language) : M string :=
  let* ai := getAIClient in
  let* response_text := generateContent ai (getPorondamReading_request data lang) in
  ret (stripFences (JS.or_default response_text "Compatibility check failed.")).

Definition analyzeAncientManuscript_request (image : string) (lang : Language)
  : GenerateContentParams :=
  let langInstruction := if String.eqb lang "si" then "Sinhala" else "English" in
  {| gc_model := "models/gemini-1.5-flash";
     gc_contents :=
       ContentsParts
         [ inlineData image;
           TextPart ("Language: " ++ langInstruction ++ JS.nl ++ JS.nl
                     ++ "Analyze this manuscript." ++ JS.nl
                     ++ "IMPORTANT: Respond in valid HTML using the specified classes.") ];
     gc_systemInstruction := SYSTEM_INSTRUCTION;
     gc_sampling := None |}.

Definition analyzeAncientManuscript (image : string) (lang : Language) : M string :=
  let* ai := getAIClient in
  let* response_text := generateContent ai (analyzeAncientManuscript_request image lang) in
  ret (stripFences (JS.or_default response_text "Manuscript analysis failed.")).

End GeminiService.

(** ** The service layer, chat-session version *)

Module GeminiServiceChat.

(** The client this version works with: a [GoogleGenAI] built from a
    string, with [getGenerativeModel].  The class this version imports from
    [@google/genai] is built from an options object and has no such method,
    so there is no such client: the type has no value. *)
Inductive GoogleGenAI : Type := .

Section SDK.

(** The error the constructor throws when it is handed a string. *)
Variable constructor_error : Error.

(** [new GoogleGenAI(apiKey)]: the constructor looks for the key in an
    options object; handed the key itself, it throws. *)
Definition newGoogleGenAI (apiKey : string) : M GoogleGenAI := throw constructor_error.

Definition getAIClient : M GoogleGenAI :=
  let* e := outside in
  let apiKey0 := JS.or_else (VITE_GEMINI_API_KEY e) (API_KEY e) in
  let* apiKey :=
    try_catch
      (let* docSnap := Store.getDoc_global_config in
       match docSnap with
       | Some data =>
           if JS.truthy (geminiApiKey data) then ret (geminiApiKey data) else ret apiKey0
       | None => ret apiKey0
       end)
      (fun _ => do console_warn "Fallback key logic used." then ret apiKey0) in
  newGoogleGenAI (JS.or_default apiKey "").

Definition SYSTEM_INSTRUCTION : string := GeminiService.SYSTEM_INSTRUCTION.

Definition MODEL_NAME : string := "gemini-1.5-flash".

(** A call on the model obtained by [genAI.getGenerativeModel(mp)], whose
    result would be [response.text()]: there is no client to make it on. *)
Definition callModel (genAI : GoogleGenAI) (mp : ModelParams) (call : ModelCall)
  : M string :=
  match genAI with end.

Definition inlineData (img : string) : Part :=
  InlineData "image/jpeg" (JS.index (JS.split "," img) 1).

Definition stripFences (text : string) : string :=
  JS.replace_all "```" "" (JS.replace_all "```html" "" text).

Definition model : ModelParams :=
  {| mp_model := MODEL_NAME; mp_systemInstruction := SYSTEM_INSTRUCTION |}.

(** [startChat({ history, generationConfig })] and the argument of
    [sendMessage] in [analyzeHoroscopeAdvanced]. *)
Definition analyzeHoroscopeAdvanced_call
  (dateString timeString : string)
  (images : list string) (userMessage : string)
  (history : list ChatMessage) (outputLang : Language) : ModelCall :=
  let chatHistory :=
    map (fun msg =>
           {| role := match msg_role msg with
                      | role_user => role_user
                      | role_model => role_model
                      end;
              parts := TextPart (msg_text msg)
                       :: map inlineData
                            (match msg_images msg with Some l => l | None => [] end) |})
        history in
  let generationConfig := {| temperature := Qmake 1 2; topP := Qmake 19 20; topK := 40 |} in
  let langInstruction :=
    if String.eqb outputLang "si"
    then GeminiService.SINHALA_DIRECTIVE else GeminiService.ENGLISH_DIRECTIVE in
  let systemContext :=
    "[SYSTEM_DATA]: CURRENT_DATE = " ++ dateString ++ ", CURRENT_TIME = " ++ timeString in
  let currentMessageParts :=
    [TextPart (systemContext ++ JS.nl ++ JS.nl ++ langInstruction ++ JS.nl ++ JS.nl
               ++ "පරිශීලකයාගේ වත්මන් පණිවිඩය: " ++ userMessage)] in
  let currentMessageParts :=
    (currentMessageParts ++
     (if (0 <? List.length images)%nat then map inlineData images else []))%list in
  SendMessage chatHistory generationConfig currentMessageParts.

Definition analyzeHoroscopeAdvanced
  (images : list string) (userMessage : string)
  (history : list ChatMessage) (outputLang : Language) : M string :=
  let* genAI := getAIClient in
  let* e := outside in
  let* cleanText :=
    callModel genAI model
      (analyzeHoroscopeAdvanced_call
         (now_toLocaleDateString e) (now_toLocaleTimeString e)
         images userMessage history outputLang) in
  ret (stripFences cleanText).

Definition getHoroscopeReading_call (data : HoroscopeData) (lang : Language) : ModelCall :=
  let langInstruction := if String.eqb lang "si" then "Sinhala" else "English" in
  let prompt :=
    "Language: " ++ langInstruction ++ JS.nl ++ JS.nl
    ++ "Perform a full horoscope reading based on:" ++ JS.nl
    ++ "DOB: " ++ dob data ++ JS.nl
    ++ "Time: " ++ tob data ++ JS.nl
    ++ "Place: " ++ pob data ++ JS.nl ++ JS.nl
    ++ "IMPORTANT: Respond in valid HTML using the specified classes." in
  GenerateText prompt.

Definition getHoroscopeReading (data : HoroscopeData) (lang : Language) : M string :=
  let* genAI := getAIClient in
  let* text := callModel genAI model (getHoroscopeReading_call data lang) in
  ret (stripFences text).

Definition getPorondamReading_call (data : PorondamData) (lang : Language) : ModelCall :=
  let langInstruction := if String.eqb lang "si" then "Sinhala" else "English" in
  let prompt :=
    "Language: " ++ langInstruction ++ JS.nl ++ JS.nl
    ++ "Check Porondam compatibility for:" ++ JS.nl
    ++ "Groom: " ++ groomName data ++ " (" ++ groomNakshatra data ++ ")" ++ JS.nl
    ++ "Bride: " ++ brideName data ++ " (" ++ brideNakshatra data ++ ")" ++ JS.nl ++ JS.nl
    ++ "IMPORTANT: Respond in valid HTML using the specified classes." in
  GenerateText prompt.

Definition getPorondamReading (data : PorondamData) (lang : Language) : M string :=
  let* genAI := getAIClient in
  let* text := callModel genAI model (getPorondamReading_call data lang) in
  ret (stripFences text).

Definition analyzeAncientManuscript_call (image : string) (lang : Language) : ModelCall :=
  let langInstruction := if String.eqb lang "si" then "Sinhala" else "English" in
  let prompt :=
    "Language: " ++ langInstruction ++ JS.nl ++ JS.nl
    ++ "Analyze this manuscript." ++ JS.nl
    ++ "IMPORTANT: Respond in valid HTML using the specified classes." in
  GenerateParts [inlineData image; TextPart prompt].

Definition analyzeAncientManuscript (image : string) (lang : Language) : M string :=
  let* genAI := getAIClient in
  let* text := callModel genAI model (analyzeAncientManuscript_call image lang) in
  ret (stripFences text).

End SDK.

End GeminiServiceChat.

(** ** The auth context *)

Module AuthContext.

Record User : Type := { uid : string; name : string; email : string; isAdmin : bool }.

(** The state of [AuthProvider]. *)
Record State : Type := { user : option User; loading : bool }.

(** The listener registered with [onAuthStateChanged]: one step of the
    provider's state for a session event. *)
Definition onAuthStateChanged (firebaseUser : option FirebaseUser.t) (st : State) : State :=
  match firebaseUser with
  | Some fu =>
      let isAdmin :=
        match FirebaseUser.email fu with
        | Some e => String.eqb e "nikila2008@gmail.com"
        | None => false
        end in
      {| user :=
           Some {| uid := FirebaseUser.uid fu;
                   name :=
                     JS.or_default
                       (JS.or_else (FirebaseUser.displayName fu)
                          (match FirebaseUser.email fu with
                           | Some e => JS.index (JS.split "@" e) 0
                           | None => None
                           end))
                       "User";
                   email := JS.or_default (FirebaseUser.email fu) "";
                   isAdmin := isAdmin |};
         loading := false |}
  | None => {| user := None; loading := false |}
  end.

(** [createUserWithEmailAndPassword(auth, email, password)]: on success the
    account exists from then on and its user is returned. *)
Definition createUserWithEmailAndPassword (email password : string) : M FirebaseUser.t :=
  do emit (EvCreateUser email password) then
  let* e := outside in
  match createUser_reply e email password with
  | inl err => throw err
  | inr uid =>
      fun w =>
        (do set_accounts
              (accounts w ++
               [{| acc_uid := uid; acc_email := email; acc_password := password |}])%list
         then ret {| FirebaseUser.uid := uid;
                     FirebaseUser.displayName := None;
                     FirebaseUser.email := Some email |}) w
  end.

Definition signup (name email password : string) : M unit :=
  let* user := createUserWithEmailAndPassword email password in
  let* e := outside in
  Store.setDoc_user (FirebaseUser.uid user)
    {| Profile.uid := FirebaseUser.uid user;
       Profile.name := name;
       Profile.email := email;
       Profile.joinedAt := now_toISOString e |}.

End AuthContext.

(** ** The admin dashboard *)

Module AdminDashboard.

(** The part of the component's state the key panel uses. *)
Record State : Type := {
  geminiKeyStatus : option string;
  newGeminiKey : string;
  keyLoading : bool
}.

Definition setGeminiKeyStatus (v : option string) (st : State) : State :=
  {| geminiKeyStatus := v; newGeminiKey := newGeminiKey st; keyLoading := keyLoading st |}.

Definition setNewGeminiKey (v : string) (st : State) : State :=
  {| geminiKeyStatus := geminiKeyStatus st; newGeminiKey := v; keyLoading := keyLoading st |}.

Definition setKeyLoading (v : bool) (st : State) : State :=
  {| geminiKeyStatus := geminiKeyStatus st; newGeminiKey := newGeminiKey st; keyLoading := v |}.

Definition loadGlobalConfig (st : State) : M State :=
  try_catch
    (let* docSnap := Store.getDoc_global_config in
     match docSnap with
     | Some data =>
         match geminiApiKey data with
         | Some (String c r) =>
             let key := String c r in
             ret (setGeminiKeyStatus
                    (Some ("Active Key: •••••••••" ++ JS.slice_last 4 key)) st)
         | Some EmptyString => ret (setGeminiKeyStatus None st)
         | None => ret (setGeminiKeyStatus None st)
         end
     | None => ret (setGeminiKeyStatus None st)
     end)
    (fun _ => do console_error "Error loading config" then ret st).

Definition handleSaveGeminiKey (st : State) : M State :=
  if negb (JS.truthy (Some (JS.trim (newGeminiKey st)))) then ret st
  else
    let st := setKeyLoading true st in
    let* st :=
      try_catch
        (do Store.setDoc_global_config_merge (JS.trim (newGeminiKey st)) then
         do alert "✅ Gemini API Key Saved Successfully!" then
         let st := setNewGeminiKey "" st in
         loadGlobalConfig st)
        (fun e =>
           do console_error e then
           do alert "❌ Error saving key" then
           ret st) in
    ret (setKeyLoading false st).

Definition handleDeleteUser (email : string) : M unit :=
  let* proceed :=
    confirm ("This will only remove user " ++ email
             ++ " from the database listing, not the Auth system. Proceed?") in
  if proceed
  then alert "User deletion from Auth requires Admin SDK. Please disable account in Firebase Console."
  else ret tt.

End AdminDashboard.

(** ** Reading the trace *)

(** The requests sent to the generation API, oldest first. *)
Fixpoint generateContent_requests (tr : list Event) : list GenerateContentParams :=
  match tr with
  | [] => []
  | EvGenerateContent _ params :: tr' => params :: generateContent_requests tr'
  | _ :: tr' => generateContent_requests tr'
  end.

Fixpoint model_calls (tr : list Event) : list ModelCall :=
  match tr with
  | [] => []
  | EvModelCall _ _ call :: tr' => call :: model_calls tr'
  | _ :: tr' => model_calls tr'
  end.

(** The values written to the [geminiApiKey] field, oldest first. *)
Fixpoint config_writes (tr : list Event) : list string :=
  match tr with
  | [] => []
  | EvSetConfig key :: tr' => key :: config_writes tr'
  | _ :: tr' => config_writes tr'
  end.

(** A call that writes to the store or to the auth provider. *)
Definition is_write (ev : Event) : bool :=
  match ev with
  | EvSetConfig _ | EvSetProfile _ _ | EvCreateUser _ _ => true
  | EvGetConfig | EvGenerateContent _ _ | EvModelCall _ _ _
  | EvConfirm _ | EvAlert _ | EvConsole _ _ => false
  end.

(** The image parts among the parts of a turn. *)
Definition image_parts (ps : list Part) : list Part :=
  List.filter (fun p => match p with InlineData _ _ => true | TextPart _ => false end) ps.

(** ** The four invocation functions, as one *)

Inductive Invocation : Type :=
| AnalyzeHoroscopeAdvanced
    (images : list string) (userMessage : string)
    (history : list ChatMessage) (outputLang : Language)
| GetHoroscopeReading (data : HoroscopeData) (lang : Language)
| GetPorondamReading (data : PorondamData) (lang : Language)
| AnalyzeAncientManuscript (image : string) (lang : Language).

Definition invoke (i : Invocation) : M string :=
  match i with
  | AnalyzeHoroscopeAdvanced images userMessage history outputLang =>
      GeminiService.analyzeHoroscopeAdvanced images userMessage history outputLang
  | GetHoroscopeReading data lang => GeminiService.getHoroscopeReading data lang
  | GetPorondamReading data lang => GeminiService.getPorondamReading data lang
  | AnalyzeAncientManuscript image lang => GeminiService.analyzeAncientManuscript image lang
  end.

(** The same in the chat-session version; [e] is the error its constructor
    call throws. *)
Definition invoke_chat (e : Error) (i : Invocation) : M string :=
  match i with
  | AnalyzeHoroscopeAdvanced images userMessage history outputLang =>
      GeminiServiceChat.analyzeHoroscopeAdvanced e images userMessage history outputLang
  | GetHoroscopeReading data lang => GeminiServiceChat.getHoroscopeReading e data lang
  | GetPorondamReading data lang => GeminiServiceChat.getPorondamReading e data lang
  | AnalyzeAncientManuscript image lang =>
      GeminiServiceChat.analyzeAncientManuscript e image lang
  end.

(** The request an invocation sends, in each version. *)
Definition request_of (e : External) (i : Invocation) : GenerateContentParams :=
  match i with
  | AnalyzeHoroscopeAdvanced images userMessage history outputLang =>
      GeminiService.analyzeHoroscopeAdvanced_request
        (now_toLocaleDateString e) (now_toLocaleTimeString e)
        images userMessage history outputLang
  | GetHoroscopeReading data lang => GeminiService.getHoroscopeReading_request data lang
  | GetPorondamReading data lang => GeminiService.getPorondamReading_request data lang
  | AnalyzeAncientManuscript image lang =>
      GeminiService.analyzeAncientManuscript_request image lang
  end.

Definition call_of (e : External) (i : Invocation) : ModelCall :=
  match i with
  | AnalyzeHoroscopeAdvanced images userMessage history outputLang =>
      GeminiServiceChat.analyzeHoroscopeAdvanced_call
        (now_toLocaleDateString e) (now_toLocaleTimeString e)
        images userMessage history outputLang
  | GetHoroscopeReading data lang => GeminiServiceChat.getHoroscopeReading_call data lang
  | GetPorondamReading data lang => GeminiServiceChat.getPorondamReading_call data lang
  | AnalyzeAncientManuscript image lang =>
      GeminiServiceChat.analyzeAncientManuscript_call image lang
  end.

(** The string each function of the [generateContent] version returns in
    place of a missing text. *)
Definition fallback_of (i : Invocation) : string :=
  match i with
  | AnalyzeHoroscopeAdvanced _ _ _ _ =>
      "සන්නිවේදනයේ දෝෂයක් ඇති විය. කරුණාකර මඳ වේලාවකින් නැවත උත්සාහ කරන්න."
  | GetHoroscopeReading _ _ => "Reading failed."
  | GetPorondamReading _ _ => "Compatibility check failed."
  | AnalyzeAncientManuscript _ _ => "Manuscript analysis failed."
  end.

(** The language line each function puts in its prompt. *)
Definition directive_of (i : Invocation) : string :=
  match i with
  | AnalyzeHoroscopeAdvanced _ _ _ outputLang =>
      if String.eqb outputLang "si"
      then GeminiService.SINHALA_DIRECTIVE else GeminiService.ENGLISH_DIRECTIVE
  | GetHoroscopeReading _ lang
  | GetPorondamReading _ lang
  | AnalyzeAncientManuscript _ lang =>
      if String.eqb lang "si" then "Language: Sinhala" else "Language: English"
  end.

(** The texts among the parts of a turn. *)
Definition part_texts (ps : list Part) : list string :=
  flat_map (fun p => match p with TextPart t => [t] | InlineData _ _ => [] end) ps.

(** The text of the new user turn of a request. *)
Definition user_prompt (c : Contents) : list string :=
  match c with
  | ContentsText prompt => [prompt]
  | ContentsParts ps => part_texts ps
  | ContentsTurns turns =>
      match rev turns with
      | t :: _ => part_texts (parts t)
      | [] => []
      end
  end.

Definition call_prompt (c : ModelCall) : list string :=
  match c with
  | SendMessage _ _ message => part_texts message
  | GenerateText prompt => [prompt]
  | GenerateParts ps => part_texts ps
  end.

(** ** The key the resolver is specified to give *)

(** The first of the two environment variables that is set to a non-empty
    value, else the empty string. *)
Definition env_default (e : External) : string :=
  match VITE_GEMINI_API_KEY e with
  | Some (String c r) => String c r
  | _ =>
      match API_KEY e with
      | Some k => k
      | None => ""
      end
  end.

(** The outcome of reading the config document. *)
Inductive ConfigRead : Type :=
| ReadFails (err : Error)
| ReadMissing
| ReadFound (field : option string).

Definition config_read (w : World) : ConfigRead :=
  match getDoc_error (ext w) with
  | Some err => ReadFails err
  | None =>
      match settings_global_config (db w) with
      | None => ReadMissing
      | Some data => ReadFound (geminiApiKey data)
      end
  end.

Definition expected_key (w : World) : string :=
  match config_read w with
  | ReadFound (Some (String c r)) => String c r
  | ReadFound (Some EmptyString) => env_default (ext w)
  | ReadFound None => env_default (ext w)
  | ReadMissing => env_default (ext w)
  | ReadFails _ => env_default (ext w)
  end.

(** The calls the resolver makes. *)
Definition client_events (warning : string) (w : World) : list Event :=
  EvGetConfig ::
  match getDoc_error (ext w) with
  | Some _ => [EvConsole "warn" warning]
  | None => []
  end.

(** ** Images and their payloads *)

(** What the specification of the payload reads: the text between the first
    comma of the image string and the next one (or the end), and nothing
    when the string has no comma. *)
Definition payload_of (img : string) : option string :=
  match JS.after_first "," img with
  | Some rest => Some (JS.before_first "," rest)
  | None => None
  end.

(** The [data] fields of the image parts of a turn. *)
Definition part_payloads (ps : list Part) : list (option string) :=
  flat_map (fun p => match p with InlineData _ d => [d] | TextPart _ => [] end) ps.

(** The payloads a request carries, turn by turn. *)
Definition request_payloads (c : Contents) : list (list (option string)) :=
  match c with
  | ContentsText _ => [[]]
  | ContentsParts ps => [part_payloads ps]
  | ContentsTurns turns => map (fun t => part_payloads (parts t)) turns
  end.

Definition call_payloads (c : ModelCall) : list (list (option string)) :=
  match c with
  | SendMessage history _ message =>
      (map (fun t => part_payloads (parts t)) history ++ [part_payloads message])%list
  | GenerateText _ => [[]]
  | GenerateParts ps => [part_payloads ps]
  end.

(** The images attached to an invocation, turn by turn: those of the
    history, then those of the new turn. *)
Definition attached_images (i : Invocation) : list (list string) :=
  match i with
  | AnalyzeHoroscopeAdvanced images _ history _ =>
      (map (fun msg => match msg_images msg with Some l => l | None => [] end) history
       ++ [images])%list
  | GetHoroscopeReading _ _ => [[]]
  | GetPorondamReading _ _ => [[]]
  | AnalyzeAncientManuscript image _ => [[image]]
  end.

(** ** White space at the ends *)

(** No white-space character starts or ends [s]. *)
Definition clean_ends (s : string) : bool :=
  forallb (fun p => negb (String.prefix p s) && negb (JS.suffix p s)) JS.WHITE_SPACE.

(** ** Sample worlds *)

Definition quiet : External :=
  {| VITE_GEMINI_API_KEY := Some "env-key";
     API_KEY := None;
     getDoc_error := None;
     setDoc_error := None;
     createUser_reply := fun email _ => inr ("uid-" ++ email);
     generateContent_reply := fun _ _ => Resolved (Some "<div>ok</div>");
     model_reply := fun _ _ _ => Resolved "<div>ok</div>";
     confirm_reply := fun _ => true;
     now_toLocaleDateString := "2024-01-01";
     now_toLocaleTimeString := "10:00:00";
     now_toISOString := "2024-01-01T10:00:00.000Z" |}.

(** The store refuses every write. *)
Definition write_refused : External :=
  {| VITE_GEMINI_API_KEY := VITE_GEMINI_API_KEY quiet;
     API_KEY := API_KEY quiet;
     getDoc_error := None;
     setDoc_error := Some "permission-denied";
     createUser_reply := createUser_reply quiet;
     generateContent_reply := generateContent_reply quiet;
     model_reply := model_reply quiet;
     confirm_reply := confirm_reply quiet;
     now_toLocaleDateString := now_toLocaleDateString quiet;
     now_toLocaleTimeString := now_toLocaleTimeString quiet;
     now_toISOString := now_toISOString quiet |}.

(** The generation API answers [text] to every request. *)
Definition answering (text : option string) : External :=
  {| VITE_GEMINI_API_KEY := VITE_GEMINI_API_KEY quiet;
     API_KEY := API_KEY quiet;
     getDoc_error := None;
     setDoc_error := None;
     createUser_reply := createUser_reply quiet;
     generateContent_reply := fun _ _ => Resolved text;
     model_reply := fun _ _ _ => Resolved (match text with Some t => t | None => "" end);
     confirm_reply := confirm_reply quiet;
     now_toLocaleDateString := now_toLocaleDateString quiet;
     now_toLocaleTimeString := now_toLocaleTimeString quiet;
     now_toISOString := now_toISOString quiet |}.

Definition fenced : External := answering (Some "```html<div>ok</div>```").

Definition silent : External := answering None.

Definition sample_birth : HoroscopeData :=
  {| dob := "1990-01-01"; tob := "06:30"; pob := "Kandy" |}.

Definition empty_db : Firestore :=
  {| settings_global_config := None; users := ∅ |}.

Definition world_of (e : External) : World :=
  {| ext := e; db := empty_db; accounts := []; trace := [] |}.

(** The config document holds [cfg]. *)
Definition with_config (cfg : option GlobalConfig) (w : World) : World :=
  {| ext := ext w;
     db := {| settings_global_config := cfg; users := users (db w) |};
     accounts := accounts w;
     trace := trace w |}.

(** The store refuses every read. *)
Definition read_refused : External :=
  {| VITE_GEMINI_API_KEY := None;
     API_KEY := Some "second-key";
     getDoc_error := Some "unavailable";
     setDoc_error := None;
     createUser_reply := createUser_reply quiet;
     generateContent_reply := generateContent_reply quiet;
     model_reply := model_reply quiet;
     confirm_reply := confirm_reply quiet;
     now_toLocaleDateString := now_toLocaleDateString quiet;
     now_toLocaleTimeString := now_toLocaleTimeString quiet;
     now_toISOString := now_toISOString quiet |}.

(** ** The rest of the auth context and of the dashboard

    The functions below use five operations the functions above do not:
    sign-in, sign-out, the listing of a collection, the deletion of a field
    and the notification context's [addNotification].  A [Session] is a
    world together with what these operations will answer and the log of
    the calls made to them. *)

Inductive Call : Type :=
| CallSignIn (email password : string)
| CallSignOut
| CallGetUsers
| CallDeleteKeyField
| CallAddNotification (title message : string).

Record Session : Type := {
  world : World;
  signIn_error : string -> string -> option Error;
  signOut_error : option Error;
  getDocs_error : option Error;
  updateDoc_error : option Error;
  calls : list Call
}.

Definition N (A : Type) : Type := Session -> Promise A * Session.

Definition ret_n {A : Type} (a : A) : N A := fun s => (Resolved a, s).

Definition throw_n {A : Type} (e : Error) : N A := fun s => (Rejected e, s).

Definition bind_n {A B : Type} (m : N A) (k : A -> N B) : N B :=
  fun s =>
    match m s with
    | (Resolved a, s') => k a s'
    | (Rejected e, s') => (Rejected e, s')
    end.

Definition try_catch_n {A : Type} (m : N A) (h : Error -> N A) : N A :=
  fun s =>
    match m s with
    | (Resolved a, s') => (Resolved a, s')
    | (Rejected e, s') => h e s'
    end.

Notation "'let+' x ':=' m 'in' k" := (bind_n m (fun x => k))
  (at level 10, x name, m at level 100, k at level 200).
Notation "'run' m 'then' k" := (bind_n m (fun _ => k))
  (at level 10, m at level 100, k at level 200).

Definition with_world (w : World) (s : Session) : Session :=
  {| world := w;
     signIn_error := signIn_error s;
     signOut_error := signOut_error s;
     getDocs_error := getDocs_error s;
     updateDoc_error := updateDoc_error s;
     calls := calls s |}.

(** A computation over the world, run in the session. *)
Definition lift {A : Type} (m : M A) : N A :=
  fun s =>
    match m (world s) with
    | (r, w') => (r, with_world w' s)
    end.

Definition here : N Session := fun s => (Resolved s, s).

Definition call (c : Call) : N unit :=
  fun s =>
    (Resolved tt,
     {| world := world s;
        signIn_error := signIn_error s;
        signOut_error := signOut_error s;
        getDocs_error := getDocs_error s;
        updateDoc_error := updateDoc_error s;
        calls := (calls s ++ [c])%list |}).

(** [signInWithEmailAndPassword(auth, email, password)] *)
Definition signInWithEmailAndPassword (email password : string) : N unit :=
  run call (CallSignIn email password) then
  let+ s := here in
  match signIn_error s email password with
  | Some err => throw_n err
  | None => ret_n tt
  end.

(** [signOut(auth)] *)
Definition signOut : N unit :=
  run call CallSignOut then
  let+ s := here in
  match signOut_error s with
  | Some err => throw_n err
  | None => ret_n tt
  end.

(** [getDocs(collection(db, 'users'))] followed by
    [.docs.map(doc => doc.data())]: the data of every document of the
    collection, in the order the store lists them. *)
Definition getDocs_users : N (list Profile.t) :=
  run call CallGetUsers then
  let+ s := here in
  match getDocs_error s with
  | Some err => throw_n err
  | None => ret_n (map snd (map_to_list (users (db (world s)))))
  end.

(** [updateDoc(doc(db, "settings", "global_config"),
    { geminiApiKey: deleteField() })]: the store rejects an update of a
    document that does not exist. *)
Definition updateDoc_deleteField : N unit :=
  run call CallDeleteKeyField then
  let+ s := here in
  match updateDoc_error s with
  | Some err => throw_n err
  | None =>
      match settings_global_config (db (world s)) with
      | None => throw_n "not-found"
      | Some _ =>
          lift (set_db {| settings_global_config := Some {| geminiApiKey := None |};
                          users := users (db (world s)) |})
      end
  end.

(** [addNotification(title, message)] of the notification context. *)
Definition addNotification (title message : string) : N unit :=
  call (CallAddNotification title message).

Module AuthProvider.

Definition login (email password : string) : N unit :=
  signInWithEmailAndPassword email password.

Definition logout (st : AuthContext.State) : N AuthContext.State :=
  try_catch_n
    (run signOut then
     ret_n {| AuthContext.user := None; AuthContext.loading := AuthContext.loading st |})
    (fun _ => run lift (console_error "Logout Error:") then ret_n st).

End AuthProvider.

Module AdminPanel.

Definition handleDeleteGeminiKey (st : AdminDashboard.State) : N AdminDashboard.State :=
  let+ proceed :=
    lift (confirm "Are you sure? This will break AI features until a new key is added.") in
  if negb proceed then ret_n st
  else
    let st := AdminDashboard.setKeyLoading true st in
    let+ st :=
      try_catch_n
        (run updateDoc_deleteField then
         run lift (alert "⚠️ API Key Removed") then
         lift (AdminDashboard.loadGlobalConfig st))
        (fun e =>
           run lift (console_error e) then
           run lift (alert "❌ Error removing key") then
           ret_n st) in
    ret_n (AdminDashboard.setKeyLoading false st).

(** The [users] state is replaced by the listing, or left as it is. *)
Definition refreshUsers (users : list Profile.t) : N (list Profile.t) :=
  try_catch_n
    (let+ userList := getDocs_users in ret_n userList)
    (fun _ => run lift (console_error "Error fetching users:") then ret_n users).

(** The two fields of the broadcast form, before and after. *)
Definition handleSendNotification (notifTitle notifMsg : string) : N (string * string) :=
  if JS.truthy (Some notifTitle) && JS.truthy (Some notifMsg)
  then
    run addNotification notifTitle notifMsg then
    run lift (alert "Notification sent to all users.") then
    ret_n ("", "")
  else ret_n (notifTitle, notifMsg).

(** [disabled={!newGeminiKey.trim() || keyLoading}] of the Save button. *)
Definition saveDisabled (st : AdminDashboard.State) : bool :=
  negb (JS.truthy (Some (JS.trim (AdminDashboard.newGeminiKey st))))
  || AdminDashboard.keyLoading st.

(** [{geminiKeyStatus && (<button ...>Delete Key</button>)}] *)
Definition deleteKeyShown (st : AdminDashboard.State) : bool :=
  JS.truthy (AdminDashboard.geminiKeyStatus st).

End AdminPanel.

(** The messages shown by [alert], oldest first. *)
Fixpoint alerts_shown (tr : list Event) : list string :=
  match tr with
  | [] => []
  | EvAlert message :: tr' => message :: alerts_shown tr'
  | _ :: tr' => alerts_shown tr'
  end.

(** The characters the code fences are made of. *)
Definition fence_char (c : ascii) : bool :=
  existsb (Ascii.eqb c) (list_ascii_of_string "`html").

(** ** More sample worlds *)

(** The generation API rejects every request. *)
Definition api_down : External :=
  {| VITE_GEMINI_API_KEY := VITE_GEMINI_API_KEY quiet;
     API_KEY := API_KEY quiet;
     getDoc_error := None;
     setDoc_error := None;
     createUser_reply := createUser_reply quiet;
     generateContent_reply := fun _ _ => Rejected "quota-exceeded";
     model_reply := fun _ _ _ => Rejected "quota-exceeded";
     confirm_reply := confirm_reply quiet;
     now_toLocaleDateString := now_toLocaleDateString quiet;
     now_toLocaleTimeString := now_toLocaleTimeString quiet;
     now_toISOString := now_toISOString quiet |}.

(** The auth provider refuses every registration. *)
Definition signup_refused : External :=
  {| VITE_GEMINI_API_KEY := VITE_GEMINI_API_KEY quiet;
     API_KEY := API_KEY quiet;
     getDoc_error := None;
     setDoc_error := None;
     createUser_reply := fun _ _ => inl "auth/email-already-in-use";
     generateContent_reply := generateContent_reply quiet;
     model_reply := model_reply quiet;
     confirm_reply := confirm_reply quiet;
     now_toLocaleDateString := now_toLocaleDateString quiet;
     now_toLocaleTimeString := now_toLocaleTimeString quiet;
     now_toISOString := now_toISOString quiet |}.

(** A session in which the four operations succeed. *)
Definition session_of (w : World) : Session :=
  {| world := w;
     signIn_error := fun _ _ => None;
     signOut_error := None;
     getDocs_error := None;
     updateDoc_error := None;
     calls := [] |}.

(** A session in which the four operations fail. *)
Definition offline_session (w : World) : Session :=
  {| world := w;
     signIn_error := fun _ _ => Some "auth/network-request-failed";
     signOut_error := Some "auth/network-request-failed";
     getDocs_error := Some "unavailable";
     updateDoc_error := Some "unavailable";
     calls := [] |}.

Definition key_form (input : string) : AdminDashboard.State :=
  {| AdminDashboard.geminiKeyStatus := None;
     AdminDashboard.newGeminiKey := input;
     AdminDashboard.keyLoading := false |}.

Definition ann : AuthContext.User :=
  {| AuthContext.uid := "u1"; AuthContext.name := "Ann";
     AuthContext.email := "ann@example.org"; AuthContext.isAdmin := false |}.

(** * Properties *)

(** ** Strings *)

Example includes_ex : JS.includes "```" "a```b" = true.
Proof. reflexivity. Qed.

Example replace_all_ex : JS.replace_all "```html" "" "x```html<p>```" = "x<p>```".
Proof. reflexivity. Qed.

(** Removing the longer marker can bring back-quotes together. *)
Example replace_all_joins : JS.replace_all "```html" "" "````html``" = "```".
Proof. reflexivity. Qed.

Example split_ex : JS.split "," "data:image/png;base64,AAAA" = ["data:image/png;base64"; "AAAA"].
Proof. reflexivity. Qed.

Example split_two_commas : JS.split "," "a,b,c" = ["a"; "b"; "c"].
Proof. reflexivity. Qed.

Example split_empty : JS.split "," "" = [""].
Proof. reflexivity. Qed.

Example trim_ex : JS.trim (" " ++ JS.nl ++ " key 1 " ++ JS.nl) = "key 1".
Proof. reflexivity. Qed.

Example trim_unicode : JS.trim (JS.bytes [226; 128; 168; 65; 194; 160]) = "A".
Proof. reflexivity. Qed.

Example trim_blank : JS.trim "   " = "".
Proof. reflexivity. Qed.

Lemma prefix_nil (s : string) : String.prefix "" s = true.
Proof. destruct s; reflexivity. Qed.

Lemma prefix_app (p r : string) : String.prefix p (p ++ r) = true.
Proof.
  induction p as [|a p IH]; simpl.
  - apply prefix_nil.
  - destruct (ascii_dec a a); [exact IH | congruence].
Qed.

Lemma prefix_inv (p : string) : forall s, String.prefix p s = true -> exists r, s = p ++ r.
Proof.
  induction p as [|a p IH]; intros s H.
  - exists s. reflexivity.
  - destruct s as [|b s]; simpl in H; [discriminate|].
    destruct (ascii_dec a b) as [->|]; [|discriminate].
    destruct (IH _ H) as [r ->]. exists r. reflexivity.
Qed.

Lemma prefix_trans (p q s : string) :
  String.prefix p q = true -> String.prefix q s = true -> String.prefix p s = true.
Proof.
  intros Hpq Hqs.
  destruct (prefix_inv _ _ Hpq) as [r1 ->].
  destruct (prefix_inv _ _ Hqs) as [r2 ->].
  clear. induction p as [|a p IH]; simpl.
  - apply prefix_nil.
  - destruct (ascii_dec a a); [exact IH | congruence].
Qed.

Lemma prefix_app_l (p s b : string) :
  String.prefix p s = true -> String.prefix p (s ++ b) = true.
Proof.
  intros H. destruct (prefix_inv _ _ H) as [r ->].
  apply prefix_trans with (q := p ++ r); [exact H | apply prefix_app].
Qed.

Lemma includes_unfold (p s : string) :
  JS.includes p s =
  String.prefix p s
  || match s with EmptyString => false | String _ s' => JS.includes p s' end.
Proof. destruct s; reflexivity. Qed.

Lemma includes_of_prefix (p s : string) : String.prefix p s = true -> JS.includes p s = true.
Proof. intros H. rewrite includes_unfold, H. reflexivity. Qed.

Lemma includes_cons (p : string) (c : ascii) (s : string) :
  JS.includes p s = true -> JS.includes p (String c s) = true.
Proof. intros H. rewrite includes_unfold, H. apply orb_true_r. Qed.

Lemma includes_app_r (p a s : string) :
  JS.includes p s = true -> JS.includes p (a ++ s) = true.
Proof.
  intros H. induction a as [|c a IH]; [exact H|].
  apply includes_cons. exact IH.
Qed.

Lemma includes_app_l (p s b : string) :
  JS.includes p s = true -> JS.includes p (s ++ b) = true.
Proof.
  induction s as [|c s IH]; intros H; rewrite includes_unfold in H.
  - rewrite orb_false_r in H.
    apply includes_of_prefix. apply (prefix_app_l p "" b H).
  - apply orb_true_iff in H as [H|H].
    + apply includes_of_prefix. apply (prefix_app_l _ _ _ H).
    + apply (includes_cons p c (s ++ b)). apply IH. exact H.
Qed.

(** A string contains each of the pieces it is put together from. *)
Lemma includes_middle (p a b : string) : JS.includes p (a ++ p ++ b) = true.
Proof. apply includes_app_r. apply includes_of_prefix. apply prefix_app. Qed.

(** A string without [p] is without every extension of [p]. *)
Lemma includes_longer (p q s : string) :
  String.prefix p q = true -> JS.includes p s = false -> JS.includes q s = false.
Proof.
  intros Hpq. induction s as [|c s IH]; intros H;
    rewrite includes_unfold in H; rewrite includes_unfold;
    apply orb_false_iff in H as [H1 H2].
  - rewrite orb_false_r.
    destruct (String.prefix q "") eqn:Hq; [|reflexivity].
    rewrite (prefix_trans _ _ _ Hpq Hq) in H1. discriminate.
  - rewrite (IH H2), orb_false_r.
    destruct (String.prefix q (String c s)) eqn:Hq; [|reflexivity].
    rewrite (prefix_trans _ _ _ Hpq Hq) in H1. discriminate.
Qed.

(** *** Removing the code fences *)

Lemma strip_fence (r : string) :
  JS.replace_all "```" "" ("```" ++ r) = JS.replace_all "```" "" r.
Proof. unfold JS.replace_all. simpl. rewrite prefix_nil. reflexivity. Qed.

Lemma strip_other (c : ascii) (r : string) :
  String.prefix "```" (String c r) = false ->
  JS.replace_all "```" "" (String c r) = String c (JS.replace_all "```" "" r).
Proof. intros H. unfold JS.replace_all. cbn [JS.replace_from]. rewrite H. reflexivity. Qed.

Lemma prefix3_cons (c : ascii) (s : string) :
  String.prefix "```" (String c s) =
  if ascii_dec "`" c then String.prefix "``" s else false.
Proof. reflexivity. Qed.

Lemma prefix2_cons (c : ascii) (s : string) :
  String.prefix "``" (String c s) =
  if ascii_dec "`" c then String.prefix "`" s else false.
Proof. reflexivity. Qed.

Lemma prefix1_cons (c : ascii) (s : string) :
  String.prefix "`" (String c s) = if ascii_dec "`" c then true else false.
Proof.
  change (String.prefix "`" (String c s))
    with (if ascii_dec "`" c then String.prefix "" s else false).
  destruct (ascii_dec "`" c); [apply prefix_nil | reflexivity].
Qed.

(** What is left of a string that does not start with two back-quotes does
    not start with two back-quotes. *)
Lemma strip_no_pair (r : string) :
  String.prefix "``" r = false ->
  String.prefix "``" (JS.replace_all "```" "" r) = false.
Proof.
  intros H. destruct r as [|a r]; [reflexivity|].
  rewrite strip_other.
  2:{ rewrite prefix3_cons. rewrite prefix2_cons in H.
      destruct (ascii_dec "`" a); [|reflexivity].
      destruct r as [|b r]; [reflexivity|].
      rewrite prefix1_cons in H. rewrite prefix2_cons.
      destruct (ascii_dec "`" b); [discriminate | reflexivity]. }
  rewrite prefix2_cons in H |- *.
  destruct (ascii_dec "`" a); [|reflexivity].
  destruct r as [|b r]; [reflexivity|].
  rewrite prefix1_cons in H.
  rewrite strip_other.
  2:{ rewrite prefix3_cons. destruct (ascii_dec "`" b); [discriminate | reflexivity]. }
  rewrite prefix1_cons. exact H.
Qed.

Lemma strip_clean_upto (n : nat) :
  forall s, (String.length s <= n)%nat ->
            JS.includes "```" (JS.replace_all "```" "" s) = false.
Proof.
  induction n as [|n IH]; intros s Hn.
  - destruct s; [reflexivity | simpl in Hn; lia].
  - destruct s as [|c r]; [reflexivity|].
    destruct (String.prefix "```" (String c r)) eqn:Hp.
    + destruct (prefix_inv _ _ Hp) as [r' Hr].
      assert (Hl : String.length (String c r) = 3 + String.length r')
        by (rewrite Hr; reflexivity).
      rewrite Hr, strip_fence. apply IH. simpl in Hl, Hn. lia.
    + rewrite strip_other by exact Hp.
      rewrite includes_unfold. apply orb_false_iff. split.
      * rewrite prefix3_cons in Hp |- *.
        destruct (ascii_dec "`" c); [|reflexivity].
        apply strip_no_pair. exact Hp.
      * apply IH. simpl in Hn. lia.
Qed.

(** After the fences are removed no fence is left. *)
Lemma strip_clean (s : string) : JS.includes "```" (JS.replace_all "```" "" s) = false.
Proof. apply (strip_clean_upto (String.length s)). lia. Qed.

Lemma stripFences_clean (s : string) :
  JS.includes "```html" (GeminiService.stripFences s) = false
  /\ JS.includes "```" (GeminiService.stripFences s) = false.
Proof.
  unfold GeminiService.stripFences. split; [|apply strip_clean].
  apply (includes_longer "```"); [reflexivity | apply strip_clean].
Qed.

(** ** Running the computations *)

Lemma logged_logged (a b : list Event) (w : World) :
  logged b (logged a w) = logged (a ++ b)%list w.
Proof. unfold logged. cbn. rewrite <- app_assoc. reflexivity. Qed.

Lemma env_default_eq (e : External) :
  JS.or_default (JS.or_else (VITE_GEMINI_API_KEY e) (API_KEY e)) "" = env_default e.
Proof.
  unfold env_default.
  destruct (VITE_GEMINI_API_KEY e) as [[|c r]|]; cbn;
    destruct (API_KEY e) as [[|c' r']|]; reflexivity.
Qed.

Lemma getAIClient_run (w : World) :
  GeminiService.getAIClient w =
  (Resolved {| GeminiService.apiKey := expected_key w |},
   logged (client_events "Using environment fallback key." w) w).
Proof.
  unfold GeminiService.getAIClient, expected_key, config_read, client_events.
  unfold bind, try_catch, outside, Store.getDoc_global_config, console_warn, emit, bind,
    outside, throw, ret.
  cbn.
  destruct (getDoc_error (ext w)) as [err|]; cbn.
  - rewrite logged_logged, env_default_eq. reflexivity.
  - destruct (settings_global_config (db w)) as [[[[|c r]|]]|]; cbn;
      rewrite ?env_default_eq; reflexivity.
Qed.

(** The chat-session version reads the config document as the other one
    does, and then fails where it builds its client. *)
Lemma getAIClient_chat_run (e : Error) (w : World) :
  GeminiServiceChat.getAIClient e w =
  (Rejected e, logged (client_events "Fallback key logic used." w) w).
Proof.
  unfold GeminiServiceChat.getAIClient, GeminiServiceChat.newGoogleGenAI, client_events.
  unfold bind, try_catch, outside, Store.getDoc_global_config, console_warn, emit, bind,
    outside, throw, ret.
  cbn.
  destruct (getDoc_error (ext w)) as [err|]; cbn.
  - rewrite logged_logged. reflexivity.
  - destruct (settings_global_config (db w)) as [[[[|c r]|]]|]; reflexivity.
Qed.

Lemma generateContent_run (ai : GeminiService.GoogleGenAI) (params : GenerateContentParams)
  (w : World) :
  GeminiService.generateContent ai params w =
  (generateContent_reply (ext w) (GeminiService.apiKey ai) params,
   logged [EvGenerateContent (GeminiService.apiKey ai) params] w).
Proof.
  unfold GeminiService.generateContent, bind, emit, outside, throw, ret. cbn.
  destruct (generateContent_reply (ext w) (GeminiService.apiKey ai) params); reflexivity.
Qed.

(** Every invocation resolves the client, sends one request, and returns the
    cleaned text of the answer, or the fallback when the answer has no text;
    a failure of the API is passed on. *)
Lemma invoke_run (i : Invocation) (w : World) :
  invoke i w =
  (match generateContent_reply (ext w) (expected_key w) (request_of (ext w) i) with
   | Resolved t => Resolved (GeminiService.stripFences (JS.or_default t (fallback_of i)))
   | Rejected e => Rejected e
   end,
   logged (client_events "Using environment fallback key." w
           ++ [EvGenerateContent (expected_key w) (request_of (ext w) i)])%list w).
Proof.
  destruct i; unfold invoke, request_of, fallback_of;
    [ unfold GeminiService.analyzeHoroscopeAdvanced
    | unfold GeminiService.getHoroscopeReading
    | unfold GeminiService.getPorondamReading
    | unfold GeminiService.analyzeAncientManuscript ];
    unfold bind at 1; rewrite getAIClient_run;
    unfold bind, outside; rewrite generateContent_run; cbn [ext logged GeminiService.apiKey];
    match goal with
    | |- context [generateContent_reply ?e ?k ?p] => destruct (generateContent_reply e k p)
    end;
    unfold ret; rewrite logged_logged; reflexivity.
Qed.

(** No function of the chat-session version reaches the generation API: each
    rejects with the error of the constructor, after the read of the config
    document. *)
Lemma invoke_chat_rejects (e : Error) (i : Invocation) (w : World) :
  invoke_chat e i w = (Rejected e, logged (client_events "Fallback key logic used." w) w).
Proof.
  destruct i; unfold invoke_chat;
    [ unfold GeminiServiceChat.analyzeHoroscopeAdvanced
    | unfold GeminiServiceChat.getHoroscopeReading
    | unfold GeminiServiceChat.getPorondamReading
    | unfold GeminiServiceChat.analyzeAncientManuscript ];
    unfold bind at 1; rewrite getAIClient_chat_run; reflexivity.
Qed.

(** ** The cleaned text (C2) *)

Lemma stripFences_chat_clean (s : string) :
  JS.includes "```html" (GeminiServiceChat.stripFences s) = false
  /\ JS.includes "```" (GeminiServiceChat.stripFences s) = false.
Proof. exact (stripFences_clean s). Qed.

(** C2.  Whatever text the generation API answers, the string each of the
    four invocation functions returns, in either version of the service,
    contains neither the marker [```html] nor the marker [```]. *)
Theorem fences_removed (e : Error) (i : Invocation) (w : World) (s : string) :
  fst (invoke i w) = Resolved s \/ fst (invoke_chat e i w) = Resolved s ->
  JS.includes "```html" s = false /\ JS.includes "```" s = false.
Proof.
  intros [H|H].
  - rewrite invoke_run in H. cbn [fst] in H.
    destruct (generateContent_reply _ _ _); inversion H. apply stripFences_clean.
  - rewrite invoke_chat_rejects in H. discriminate.
Qed.

Lemma fences_removed_witness :
  fst (invoke (GetHoroscopeReading sample_birth "si") (world_of fenced))
  = Resolved "<div>ok</div>"
  /\ JS.includes "```html" "<div>ok</div>" = false
  /\ JS.includes "```" "<div>ok</div>" = false.
Proof.
  assert (H : fst (invoke (GetHoroscopeReading sample_birth "si") (world_of fenced))
              = Resolved "<div>ok</div>") by (vm_compute; reflexivity).
  split; [exact H|].
  apply (fences_removed "" (GetHoroscopeReading sample_birth "si") (world_of fenced)).
  left. exact H.
Defined.

(** The functions do return when the API answers: the result is the cleaned
    text. *)
Lemma invoke_returns (i : Invocation) (w : World) (t : option string) :
  generateContent_reply (ext w) (expected_key w) (request_of (ext w) i) = Resolved t ->
  fst (invoke i w) = Resolved (GeminiService.stripFences (JS.or_default t (fallback_of i))).
Proof. intros H. rewrite invoke_run, H. reflexivity. Qed.

(** ** The credential resolver (C3) *)

Example env_default_first :
  env_default quiet = "env-key".
Proof. reflexivity. Qed.

Example stored_key_overrides :
  fst (GeminiService.getAIClient
         (with_config (Some {| geminiApiKey := Some "stored-key" |}) (world_of quiet)))
  = Resolved {| GeminiService.apiKey := "stored-key" |}.
Proof. reflexivity. Qed.

Example empty_field_ignored :
  fst (GeminiService.getAIClient
         (with_config (Some {| geminiApiKey := Some "" |}) (world_of quiet)))
  = Resolved {| GeminiService.apiKey := "env-key" |}.
Proof. reflexivity. Qed.

Example missing_document :
  fst (GeminiService.getAIClient (world_of quiet))
  = Resolved {| GeminiService.apiKey := "env-key" |}.
Proof. reflexivity. Qed.

Example read_failure_swallowed :
  GeminiService.getAIClient
    (with_config (Some {| geminiApiKey := Some "stored-key" |}) (world_of read_refused))
  = (Resolved {| GeminiService.apiKey := "second-key" |},
     logged [EvGetConfig; EvConsole "warn" "Using environment fallback key."]
       (with_config (Some {| geminiApiKey := Some "stored-key" |}) (world_of read_refused))).
Proof. reflexivity. Qed.

(** C3.  The resolver never rejects, and the key of the client it returns
    is the [geminiApiKey] field of the config document when the document
    is read, exists and has a non-empty field, and the environment default
    in every other case: read failure, missing document, absent field,
    empty field.  The environment default is the first of the two variables
    when it is set and not empty, else the second when it is set, else the
    empty string. *)
Theorem getAIClient_key (w : World) :
  fst (GeminiService.getAIClient w)
  = Resolved {| GeminiService.apiKey :=
                  match config_read w with
                  | ReadFound (Some (String c r)) => String c r
                  | ReadFound (Some EmptyString) => env_default (ext w)
                  | ReadFound None => env_default (ext w)
                  | ReadMissing => env_default (ext w)
                  | ReadFails _ => env_default (ext w)
                  end |}
  /\ env_default (ext w)
     = match VITE_GEMINI_API_KEY (ext w), API_KEY (ext w) with
       | Some (String c r), _ => String c r
       | _, Some k => k
       | _, None => ""
       end.
Proof.
  rewrite getAIClient_run. cbn [fst].
  split; [reflexivity|].
  unfold env_default.
  destruct (VITE_GEMINI_API_KEY (ext w)) as [[|c r]|];
    destruct (API_KEY (ext w)); reflexivity.
Qed.

(** ** The fallback (C5) *)

Lemma or_default_falsy (t : option string) (d : string) :
  JS.truthy t = false -> JS.or_default t d = d.
Proof. destruct t as [[|c r]|]; cbn; intros H; [reflexivity | discriminate | reflexivity]. Qed.

Lemma stripFences_fallback (i : Invocation) :
  GeminiService.stripFences (fallback_of i) = fallback_of i.
Proof. destruct i; vm_compute; reflexivity. Qed.

Lemma fallback_nonempty (i : Invocation) : fallback_of i <> "".
Proof. destruct i; discriminate. Qed.

(** C5.  When the generation API answers the request of an invocation
    without text (no text at all, or the empty text), the function returns
    its fixed fallback string, which is not empty, in place of a cleaned
    text. *)
Theorem fallback_when_no_text (i : Invocation) (w : World) (t : option string) :
  generateContent_reply (ext w) (expected_key w) (request_of (ext w) i) = Resolved t ->
  JS.truthy t = false ->
  fst (invoke i w) = Resolved (fallback_of i)
  /\ fallback_of i <> ""
  /\ fallback_of i
     = match i with
       | AnalyzeHoroscopeAdvanced _ _ _ _ =>
           "සන්නිවේදනයේ දෝෂයක් ඇති විය. කරුණාකර මඳ වේලාවකින් නැවත උත්සාහ කරන්න."
       | GetHoroscopeReading _ _ => "Reading failed."
       | GetPorondamReading _ _ => "Compatibility check failed."
       | AnalyzeAncientManuscript _ _ => "Manuscript analysis failed."
       end.
Proof.
  intros Ht Hfalsy. split; [|split; [apply fallback_nonempty | destruct i; reflexivity]].
  rewrite (invoke_returns i w t Ht), (or_default_falsy _ _ Hfalsy).
  rewrite stripFences_fallback. reflexivity.
Qed.

Lemma fallback_when_no_text_witness :
  fst (invoke (GetHoroscopeReading sample_birth "en") (world_of silent))
  = Resolved "Reading failed.".
Proof.
  exact (proj1 (fallback_when_no_text (GetHoroscopeReading sample_birth "en")
                  (world_of silent) None eq_refl eq_refl)).
Defined.

Example fallback_for_empty_text :
  fst (invoke (AnalyzeAncientManuscript "data:image/jpeg;base64,AAAA" "si")
         (world_of (answering (Some ""))))
  = Resolved "Manuscript analysis failed.".
Proof. vm_compute. reflexivity. Qed.

(** ** What is sent to the generation API *)

Lemma append_assoc (a b c : string) : (a ++ b) ++ c = a ++ b ++ c.
Proof.
  induction a as [|x a IH]; [reflexivity|].
  change (String x ((a ++ b) ++ c) = String x (a ++ b ++ c)).
  rewrite IH. reflexivity.
Qed.

Lemma generateContent_requests_app (a b : list Event) :
  generateContent_requests (a ++ b)%list
  = (generateContent_requests a ++ generateContent_requests b)%list.
Proof.
  induction a as [|ev a IH]; [reflexivity|].
  destruct ev; cbn; rewrite ?IH; reflexivity.
Qed.

Lemma model_calls_app (a b : list Event) :
  model_calls (a ++ b)%list = (model_calls a ++ model_calls b)%list.
Proof.
  induction a as [|ev a IH]; [reflexivity|].
  destruct ev; cbn; rewrite ?IH; reflexivity.
Qed.

Lemma config_writes_app (a b : list Event) :
  config_writes (a ++ b)%list = (config_writes a ++ config_writes b)%list.
Proof.
  induction a as [|ev a IH]; [reflexivity|].
  destruct ev; cbn; rewrite ?IH; reflexivity.
Qed.

Lemma client_events_quiet (warning : string) (w : World) :
  generateContent_requests (client_events warning w) = []
  /\ model_calls (client_events warning w) = [].
Proof. unfold client_events. destruct (getDoc_error (ext w)); split; reflexivity. Qed.

(** Each invocation sends exactly one request. *)
Lemma invoke_requests (i : Invocation) (w : World) :
  generateContent_requests (trace (snd (invoke i w)))
  = (generateContent_requests (trace w) ++ [request_of (ext w) i])%list.
Proof.
  rewrite invoke_run. cbn [snd logged trace].
  rewrite !generateContent_requests_app.
  rewrite (proj1 (client_events_quiet _ w)). reflexivity.
Qed.

Lemma part_texts_app (a b : list Part) :
  part_texts (a ++ b)%list = (part_texts a ++ part_texts b)%list.
Proof. unfold part_texts. apply flat_map_app. Qed.

Lemma part_texts_images (l : list string) :
  part_texts (map GeminiService.inlineData l) = [].
Proof. induction l as [|img l IH]; [reflexivity | exact IH]. Qed.

Lemma part_texts_current (images : list string) :
  part_texts (if (0 <? List.length images)%nat
              then map GeminiService.inlineData images else []) = [].
Proof. destruct (0 <? List.length images)%nat; [apply part_texts_images | reflexivity]. Qed.

(** The prompt of each request has the language line of its function in it. *)
Lemma request_prompt (e : External) (i : Invocation) :
  exists a b, user_prompt (gc_contents (request_of e i)) = [a ++ directive_of i ++ b].
Proof.
  destruct i as [images userMessage history outputLang|data lang|data lang|image lang].
  - exists ("[SYSTEM_DATA]: CURRENT_DATE = " ++ now_toLocaleDateString e
            ++ ", CURRENT_TIME = " ++ now_toLocaleTimeString e ++ JS.nl ++ JS.nl).
    exists (JS.nl ++ JS.nl ++ "පරිශීලකයාගේ වත්මන් පණිවිඩය: " ++ userMessage).
    unfold request_of, GeminiService.analyzeHoroscopeAdvanced_request, directive_of.
    cbn [gc_contents user_prompt]. rewrite rev_unit. cbn [parts].
    rewrite part_texts_app, part_texts_current. cbn [part_texts flat_map app].
    rewrite !append_assoc. reflexivity.
  - exists "". eexists. unfold request_of, GeminiService.getHoroscopeReading_request, directive_of.
    cbn [gc_contents user_prompt]. destruct (String.eqb lang "si"); reflexivity.
  - exists "". eexists. unfold request_of, GeminiService.getPorondamReading_request, directive_of.
    cbn [gc_contents user_prompt]. destruct (String.eqb lang "si"); reflexivity.
  - exists "". eexists.
    unfold request_of, GeminiService.analyzeAncientManuscript_request, directive_of.
    cbn [gc_contents user_prompt part_texts flat_map app GeminiService.inlineData].
    destruct (String.eqb lang "si"); reflexivity.
Qed.

Lemma call_prompt_directive (e : External) (i : Invocation) :
  exists a b, call_prompt (call_of e i) = [a ++ directive_of i ++ b].
Proof.
  destruct i as [images userMessage history outputLang|data lang|data lang|image lang].
  - exists ("[SYSTEM_DATA]: CURRENT_DATE = " ++ now_toLocaleDateString e
            ++ ", CURRENT_TIME = " ++ now_toLocaleTimeString e ++ JS.nl ++ JS.nl).
    exists (JS.nl ++ JS.nl ++ "පරිශීලකයාගේ වත්මන් පණිවිඩය: " ++ userMessage).
    unfold call_of, GeminiServiceChat.analyzeHoroscopeAdvanced_call, directive_of.
    cbn [call_prompt]. rewrite part_texts_app.
    change GeminiServiceChat.inlineData with GeminiService.inlineData.
    rewrite part_texts_current. cbn [part_texts flat_map app].
    rewrite !append_assoc. reflexivity.
  - exists "". eexists. unfold call_of, GeminiServiceChat.getHoroscopeReading_call, directive_of.
    cbn [call_prompt]. destruct (String.eqb lang "si"); reflexivity.
  - exists "". eexists. unfold call_of, GeminiServiceChat.getPorondamReading_call, directive_of.
    cbn [call_prompt]. destruct (String.eqb lang "si"); reflexivity.
  - exists "". eexists.
    unfold call_of, GeminiServiceChat.analyzeAncientManuscript_call, directive_of.
    cbn [call_prompt part_texts flat_map app GeminiServiceChat.inlineData].
    destruct (String.eqb lang "si"); reflexivity.
Qed.

(** ** The language directive (C4) *)

(** The builders of the two versions make the same prompt. *)
Lemma call_prompt_same (e : External) (i : Invocation) :
  call_prompt (call_of e i) = user_prompt (gc_contents (request_of e i)).
Proof.
  destruct i as [images userMessage history outputLang|data lang|data lang|image lang];
    try reflexivity.
  unfold request_of, call_of, GeminiService.analyzeHoroscopeAdvanced_request,
    GeminiServiceChat.analyzeHoroscopeAdvanced_call.
  cbn [gc_contents user_prompt call_prompt]. rewrite rev_unit. cbn [parts].
  change GeminiServiceChat.inlineData with GeminiService.inlineData.
  rewrite !part_texts_app, part_texts_current. reflexivity.
Qed.

(** The prompts of the single-shot functions start with their language
    line. *)
Lemma single_shot_prefix (e : External) (i : Invocation) :
  match i with
  | AnalyzeHoroscopeAdvanced _ _ _ _ => True
  | GetHoroscopeReading _ lang
  | GetPorondamReading _ lang
  | AnalyzeAncientManuscript _ lang =>
      exists rest,
        user_prompt (gc_contents (request_of e i))
        = [(if String.eqb lang "si"
            then "Language: Sinhala" ++ JS.nl ++ JS.nl
            else "Language: English" ++ JS.nl ++ JS.nl) ++ rest]
  end.
Proof.
  destruct i as [images userMessage history outputLang|data lang|data lang|image lang];
    [exact I| | |].
  - eexists. unfold request_of, GeminiService.getHoroscopeReading_request.
    cbn [gc_contents user_prompt]. destruct (String.eqb lang "si"); reflexivity.
  - eexists. unfold request_of, GeminiService.getPorondamReading_request.
    cbn [gc_contents user_prompt]. destruct (String.eqb lang "si"); reflexivity.
  - eexists. unfold request_of, GeminiService.analyzeAncientManuscript_request.
    cbn [gc_contents user_prompt part_texts flat_map app GeminiService.inlineData].
    destruct (String.eqb lang "si"); reflexivity.
Qed.

(** C4, as the code has it.  Each invocation sends one request, and its user
    prompt has a language line chosen by the language argument alone.  In
    [analyzeHoroscopeAdvanced] the prompt contains the Sinhala-formal
    directive for ["si"] and the English directive for every other value.
    In the three single-shot functions the prompt starts with the line
    [Language: Sinhala] for ["si"] and with the line [Language: English] for
    every other value, followed by an empty line.  The builder of the
    chat-session version makes the same prompt. *)
Theorem language_directive (i : Invocation) (w : World) :
  exists request prompt,
    generateContent_requests (trace (snd (invoke i w)))
    = (generateContent_requests (trace w) ++ [request])%list
    /\ user_prompt (gc_contents request) = [prompt]
    /\ call_prompt (call_of (ext w) i) = [prompt]
    /\ match i with
       | AnalyzeHoroscopeAdvanced _ _ _ outputLang =>
           JS.includes
             (if String.eqb outputLang "si"
              then GeminiService.SINHALA_DIRECTIVE
              else GeminiService.ENGLISH_DIRECTIVE) prompt = true
       | GetHoroscopeReading _ lang
       | GetPorondamReading _ lang
       | AnalyzeAncientManuscript _ lang =>
           String.prefix
             (if String.eqb lang "si"
              then "Language: Sinhala" ++ JS.nl ++ JS.nl
              else "Language: English" ++ JS.nl ++ JS.nl) prompt = true
       end.
Proof.
  assert (Hsent :
            forall prompt,
              user_prompt (gc_contents (request_of (ext w) i)) = [prompt] ->
              generateContent_requests (trace (snd (invoke i w)))
              = (generateContent_requests (trace w) ++ [request_of (ext w) i])%list
              /\ user_prompt (gc_contents (request_of (ext w) i)) = [prompt]
              /\ call_prompt (call_of (ext w) i) = [prompt]).
  { intros prompt Hp. split; [apply invoke_requests|]. split; [exact Hp|].
    rewrite call_prompt_same. exact Hp. }
  pose proof (request_prompt (ext w) i) as Hincl.
  pose proof (single_shot_prefix (ext w) i) as Hpre.
  destruct i as [images userMessage history outputLang|data lang|data lang|image lang].
  - destruct Hincl as [a [b Hp]]. eexists. eexists.
    destruct (Hsent _ Hp) as [H1 [H2 H3]].
    split; [exact H1|]. split; [exact H2|]. split; [exact H3|].
    apply (includes_middle (directive_of (AnalyzeHoroscopeAdvanced images userMessage
                                            history outputLang))).
  - destruct Hpre as [rest Hp]. eexists. eexists.
    destruct (Hsent _ Hp) as [H1 [H2 H3]].
    split; [exact H1|]. split; [exact H2|]. split; [exact H3|]. apply prefix_app.
  - destruct Hpre as [rest Hp]. eexists. eexists.
    destruct (Hsent _ Hp) as [H1 [H2 H3]].
    split; [exact H1|]. split; [exact H2|]. split; [exact H3|]. apply prefix_app.
  - destruct Hpre as [rest Hp]. eexists. eexists.
    destruct (Hsent _ Hp) as [H1 [H2 H3]].
    split; [exact H1|]. split; [exact H2|]. split; [exact H3|]. apply prefix_app.
Qed.

Example advanced_prompt_si :
  map (JS.includes GeminiService.SINHALA_DIRECTIVE)
    (user_prompt (gc_contents (request_of quiet (AnalyzeHoroscopeAdvanced [] "hello" [] "si"))))
  = [true].
Proof. vm_compute. reflexivity. Qed.

Example advanced_prompt_en :
  map (fun p => (JS.includes GeminiService.ENGLISH_DIRECTIVE p,
                 JS.includes GeminiService.SINHALA_DIRECTIVE p))
    (user_prompt (gc_contents (request_of quiet (AnalyzeHoroscopeAdvanced [] "hello" [] "en"))))
  = [(true, false)].
Proof. vm_compute. reflexivity. Qed.

(** The prompt of [getHoroscopeReading] for ["si"] does not contain the
    Sinhala-formal directive. *)
Lemma reading_prompt_lacks_sinhala_directive :
  exists request prompt,
    generateContent_requests
      (trace (snd (invoke (GetHoroscopeReading sample_birth "si") (world_of quiet))))
    = [request]
    /\ user_prompt (gc_contents request) = [prompt]
    /\ JS.includes GeminiService.SINHALA_DIRECTIVE prompt = false.
Proof.
  eexists. eexists. split; [|split].
  - rewrite invoke_requests. reflexivity.
  - reflexivity.
  - vm_compute. reflexivity.
Qed.

(** ** One user turn (C6) *)

(** C6.  With no history and no images, [analyzeHoroscopeAdvanced] sends
    one request; it has exactly one turn, of role user, whose parts are the
    single text part made of the date and time context, the language
    directive and the user's message; it has no image part.  The builder
    of the chat-session version makes a chat with an empty history and, as
    the message, that single text part. *)
Theorem single_user_turn (userMessage : string) (outputLang : Language) (w : World) :
  let systemContext :=
    "[SYSTEM_DATA]: CURRENT_DATE = " ++ now_toLocaleDateString (ext w)
    ++ ", CURRENT_TIME = " ++ now_toLocaleTimeString (ext w) in
  let langInstruction :=
    if String.eqb outputLang "si"
    then GeminiService.SINHALA_DIRECTIVE else GeminiService.ENGLISH_DIRECTIVE in
  let text :=
    systemContext ++ JS.nl ++ JS.nl ++ langInstruction ++ JS.nl ++ JS.nl
    ++ "පරිශීලකයාගේ වත්මන් පණිවිඩය: " ++ userMessage in
  map gc_contents
    (generateContent_requests
       (trace (snd (GeminiService.analyzeHoroscopeAdvanced [] userMessage [] outputLang w))))
  = (map gc_contents (generateContent_requests (trace w))
     ++ [ContentsTurns [{| role := role_user; parts := [TextPart text] |}]])%list
  /\ image_parts [TextPart text] = []
  /\ GeminiServiceChat.analyzeHoroscopeAdvanced_call
       (now_toLocaleDateString (ext w)) (now_toLocaleTimeString (ext w))
       [] userMessage [] outputLang
     = SendMessage [] {| temperature := Qmake 1 2; topP := Qmake 19 20; topK := 40 |}
         [TextPart text].
Proof.
  intros systemContext langInstruction text.
  split; [|split].
  - change (GeminiService.analyzeHoroscopeAdvanced [] userMessage [] outputLang)
      with (invoke (AnalyzeHoroscopeAdvanced [] userMessage [] outputLang)).
    rewrite invoke_requests, map_app. reflexivity.
  - reflexivity.
  - reflexivity.
Qed.

Example one_turn_ex :
  map gc_contents
    (generateContent_requests
       (trace (snd (GeminiService.analyzeHoroscopeAdvanced [] "hello" [] "en" (world_of quiet)))))
  = [ContentsTurns
       [{| role := role_user;
           parts :=
             [TextPart
                ("[SYSTEM_DATA]: CURRENT_DATE = 2024-01-01, CURRENT_TIME = 10:00:00"
                 ++ JS.nl ++ JS.nl ++ GeminiService.ENGLISH_DIRECTIVE ++ JS.nl ++ JS.nl
                 ++ "පරිශීලකයාගේ වත්මන් පණිවිඩය: hello")] |}]].
Proof. vm_compute. reflexivity. Qed.

(** ** Image payloads (C10) *)

Lemma split_head (sep : ascii) (s : string) :
  JS.index (JS.split sep s) 0 = Some (JS.before_first sep s).
Proof.
  induction s as [|c s IH]; [reflexivity|].
  cbn [JS.split JS.before_first]. destruct (Ascii.eqb c sep); [reflexivity|].
  destruct (JS.split sep s) as [|seg segs]; cbn in IH |- *; congruence.
Qed.

Lemma split_second (sep : ascii) (s : string) :
  JS.index (JS.split sep s) 1
  = match JS.after_first sep s with
    | Some rest => Some (JS.before_first sep rest)
    | None => None
    end.
Proof.
  induction s as [|c s IH]; [reflexivity|].
  cbn [JS.split JS.after_first]. destruct (Ascii.eqb c sep).
  - exact (split_head sep s).
  - destruct (JS.split sep s) as [|seg segs]; cbn in IH |- *; exact IH.
Qed.

Lemma includes_sep (sep : ascii) (s : string) :
  JS.includes (String sep "") s = false -> JS.after_first sep s = None.
Proof.
  induction s as [|c s IH]; [reflexivity|].
  rewrite includes_unfold. intros H. apply orb_false_iff in H as [H1 H2].
  cbn [JS.after_first]. destruct (Ascii.eqb_spec c sep) as [->|Hne]; [|exact (IH H2)].
  exfalso. revert H1. cbn [String.prefix].
  destruct (ascii_dec sep sep); [|congruence]. rewrite prefix_nil. discriminate.
Qed.

Lemma before_first_all (sep : ascii) (s : string) :
  JS.after_first sep s = None -> JS.before_first sep s = s.
Proof.
  induction s as [|c s IH]; [reflexivity|].
  cbn [JS.after_first JS.before_first]. destruct (Ascii.eqb c sep); [discriminate|].
  intros H. rewrite (IH H). reflexivity.
Qed.

(** An image string without a comma has no payload; no error is raised. *)
Lemma payload_no_comma (img : string) :
  JS.includes "," img = false -> payload_of img = None.
Proof. intros H. unfold payload_of. rewrite (includes_sep _ _ H). reflexivity. Qed.

(** For a string with one comma, as a data URI has, the payload is all that
    follows the comma. *)
Lemma payload_single_comma (img rest : string) :
  JS.after_first "," img = Some rest -> JS.includes "," rest = false ->
  payload_of img = Some rest.
Proof.
  intros H1 H2. unfold payload_of. rewrite H1.
  rewrite (before_first_all _ _ (includes_sep _ _ H2)). reflexivity.
Qed.

Lemma inlineData_payload (img : string) :
  GeminiService.inlineData img = InlineData "image/jpeg" (payload_of img).
Proof. unfold GeminiService.inlineData, payload_of. rewrite split_second. reflexivity. Qed.

Lemma part_payloads_images (l : list string) :
  part_payloads (map GeminiService.inlineData l) = map payload_of l.
Proof.
  induction l as [|img l IH]; [reflexivity|].
  cbn [map]. rewrite inlineData_payload. cbn. rewrite <- IH. reflexivity.
Qed.

Lemma part_payloads_app (a b : list Part) :
  part_payloads (a ++ b)%list = (part_payloads a ++ part_payloads b)%list.
Proof. unfold part_payloads. apply flat_map_app. Qed.

Lemma part_payloads_current (images : list string) :
  part_payloads (if (0 <? List.length images)%nat
                 then map GeminiService.inlineData images else [])
  = map payload_of images.
Proof.
  destruct images as [|img images]; [reflexivity|].
  cbn [List.length Nat.ltb Nat.leb]. apply part_payloads_images.
Qed.

Lemma history_payloads (f : Role -> Role) (history : list ChatMessage) :
  map (fun t => part_payloads (parts t))
    (map (fun msg =>
            {| role := f (msg_role msg);
               parts := TextPart (msg_text msg)
                        :: map GeminiService.inlineData
                             (match msg_images msg with Some l => l | None => [] end) |})
       history)
  = map (map payload_of)
      (map (fun msg => match msg_images msg with Some l => l | None => [] end) history).
Proof.
  induction history as [|msg history IH]; [reflexivity|].
  cbn [map parts]. rewrite IH. f_equal.
  change (part_payloads (TextPart (msg_text msg) :: ?l)) with (part_payloads l).
  apply part_payloads_images.
Qed.

(** C10, as the code has it.  For every image string attached to an
    invocation (the images of the history turns, the images of the new turn,
    the manuscript image) the payload sent is the text between the first
    comma of the string and the next comma or the end of the string; for a
    string without a comma the payload is undefined, and nothing is raised.
    Both versions of the service agree. *)
Theorem image_payloads (e : External) (i : Invocation) :
  request_payloads (gc_contents (request_of e i)) = map (map payload_of) (attached_images i)
  /\ call_payloads (call_of e i) = map (map payload_of) (attached_images i).
Proof.
  destruct i as [images userMessage history outputLang|data lang|data lang|image lang].
  - unfold request_of, call_of, GeminiService.analyzeHoroscopeAdvanced_request,
      GeminiServiceChat.analyzeHoroscopeAdvanced_call.
    cbn [gc_contents request_payloads call_payloads attached_images].
    change GeminiServiceChat.inlineData with GeminiService.inlineData.
    rewrite !map_app. cbn [map parts].
    rewrite (history_payloads (fun r => r)).
    rewrite (history_payloads
               (fun r => match r with role_user => role_user | role_model => role_model end)).
    rewrite !part_payloads_app, part_payloads_current.
    cbn [part_payloads flat_map app]. rewrite app_nil_r. split; reflexivity.
  - split; reflexivity.
  - split; reflexivity.
  - unfold request_of, call_of, GeminiService.analyzeAncientManuscript_request,
      GeminiServiceChat.analyzeAncientManuscript_call.
    cbn [gc_contents request_payloads call_payloads attached_images].
    change GeminiServiceChat.inlineData with GeminiService.inlineData.
    rewrite inlineData_payload. split; reflexivity.
Qed.

Example payload_data_uri : payload_of "data:image/jpeg;base64,/9j/4AAQ" = Some "/9j/4AAQ".
Proof. reflexivity. Qed.

Example payload_undefined : payload_of "no comma here" = None.
Proof. reflexivity. Qed.

(** The payload stops at the second comma: it is not all of the string
    after the first one. *)
Lemma payload_stops_at_second_comma :
  JS.after_first "," "a,b,c" = Some "b,c"
  /\ request_payloads
       (gc_contents (request_of quiet (AnalyzeAncientManuscript "a,b,c" "en")))
     = [[Some "b"]]
  /\ request_payloads
       (gc_contents (request_of quiet (AnalyzeAncientManuscript "a,b,c" "en")))
     <> [[JS.after_first "," "a,b,c"]].
Proof. split; [reflexivity|]. split; [reflexivity|]. vm_compute. discriminate. Qed.

(** ** The admin flag (C1) *)

(** C1.  For every session event that carries a user, the derived user's
    [isAdmin] is true exactly when the session's email is the string
    [nikila2008@gmail.com], character for character; the derived state
    depends on the event alone, not on any earlier state or stored value. *)
Theorem isAdmin_exact (fu : FirebaseUser.t) (st : AuthContext.State) :
  exists u,
    AuthContext.user (AuthContext.onAuthStateChanged (Some fu) st) = Some u
    /\ (AuthContext.isAdmin u = true <-> FirebaseUser.email fu = Some "nikila2008@gmail.com")
    /\ forall st', AuthContext.onAuthStateChanged (Some fu) st'
                   = AuthContext.onAuthStateChanged (Some fu) st.
Proof.
  eexists. split; [reflexivity|]. split; [|reflexivity].
  cbn [AuthContext.isAdmin]. destruct (FirebaseUser.email fu) as [e|].
  - rewrite String.eqb_eq. split; congruence.
  - split; discriminate.
Qed.

Example admin_matching :
  option_map AuthContext.isAdmin
    (AuthContext.user
       (AuthContext.onAuthStateChanged
          (Some {| FirebaseUser.uid := "u1"; FirebaseUser.displayName := None;
                   FirebaseUser.email := Some "nikila2008@gmail.com" |})
          {| AuthContext.user := None; AuthContext.loading := true |}))
  = Some true.
Proof. reflexivity. Qed.

Example admin_other_case :
  option_map AuthContext.isAdmin
    (AuthContext.user
       (AuthContext.onAuthStateChanged
          (Some {| FirebaseUser.uid := "u1"; FirebaseUser.displayName := None;
                   FirebaseUser.email := Some "Nikila2008@Gmail.com" |})
          {| AuthContext.user := None; AuthContext.loading := true |}))
  = Some false.
Proof. reflexivity. Qed.

Example admin_padded :
  option_map AuthContext.isAdmin
    (AuthContext.user
       (AuthContext.onAuthStateChanged
          (Some {| FirebaseUser.uid := "u1"; FirebaseUser.displayName := None;
                   FirebaseUser.email := Some " nikila2008@gmail.com" |})
          {| AuthContext.user := None; AuthContext.loading := true |}))
  = Some false.
Proof. reflexivity. Qed.

Example derived_name :
  option_map AuthContext.name
    (AuthContext.user
       (AuthContext.onAuthStateChanged
          (Some {| FirebaseUser.uid := "u1"; FirebaseUser.displayName := None;
                   FirebaseUser.email := Some "someone@example.org" |})
          {| AuthContext.user := None; AuthContext.loading := true |}))
  = Some "someone".
Proof. reflexivity. Qed.

(** ** Signup (C7) *)

(** What [signup] does, case by case. *)
Lemma signup_run (name email password : string) (w : World) :
  AuthContext.signup name email password w =
  match createUser_reply (ext w) email password with
  | inl err => (Rejected err, logged [EvCreateUser email password] w)
  | inr uid =>
      let profile :=
        {| Profile.uid := uid; Profile.name := name; Profile.email := email;
           Profile.joinedAt := now_toISOString (ext w) |} in
      let registered :=
        (accounts w ++ [{| acc_uid := uid; acc_email := email; acc_password := password |}])%list in
      let tr := (trace w ++ [EvCreateUser email password; EvSetProfile uid profile])%list in
      match setDoc_error (ext w) with
      | Some err =>
          (Rejected err,
           {| ext := ext w; db := db w; accounts := registered; trace := tr |})
      | None =>
          (Resolved tt,
           {| ext := ext w;
              db := {| settings_global_config := settings_global_config (db w);
                       users := <[uid := profile]> (users (db w)) |};
              accounts := registered; trace := tr |})
      end
  end.
Proof.
  unfold AuthContext.signup, AuthContext.createUserWithEmailAndPassword, Store.setDoc_user.
  unfold bind, emit, outside, throw, ret, set_accounts, set_db, logged. cbn.
  destruct (createUser_reply (ext w) email password) as [err|uid]; cbn; [reflexivity|].
  destruct (setDoc_error (ext w)) as [err|]; cbn; rewrite <- app_assoc; reflexivity.
Qed.



(** When the write succeeds the profile is there. *)
Lemma signup_success (name email password uid : string) (w : World) :
  createUser_reply (ext w) email password = inr uid ->
  setDoc_error (ext w) = None ->
  fst (AuthContext.signup name email password w) = Resolved tt
  /\ users (db (snd (AuthContext.signup name email password w))) !! uid
     = Some {| Profile.uid := uid; Profile.name := name; Profile.email := email;
               Profile.joinedAt := now_toISOString (ext w) |}.
Proof.
  intros Hcreate Hwrite. rewrite signup_run, Hcreate, Hwrite. cbn.
  split; [reflexivity | apply lookup_insert_eq].
Qed.

(** When the registration fails nothing is written. *)
Lemma signup_not_registered (name email password err : string) (w : World) :
  createUser_reply (ext w) email password = inl err ->
  AuthContext.signup name email password w
  = (Rejected err, logged [EvCreateUser email password] w).
Proof. intros Hcreate. rewrite signup_run, Hcreate. reflexivity. Qed.

(** ** The delete-user action (C8) *)

(** C8.  For every user of the panel, the delete action writes nothing to
    the document store and nothing to the auth provider: it asks for a
    confirmation and, when confirmed, shows an instruction; the store, with
    all its profile documents, and the accounts are as before. *)
Theorem handleDeleteUser_no_write (email : string) (w : World) :
  let w' := snd (AdminDashboard.handleDeleteUser email w) in
  let question :=
    "This will only remove user " ++ email
    ++ " from the database listing, not the Auth system. Proceed?" in
  let shown :=
    EvConfirm question ::
    (if confirm_reply (ext w) question
     then [EvAlert "User deletion from Auth requires Admin SDK. Please disable account in Firebase Console."]
     else []) in
  fst (AdminDashboard.handleDeleteUser email w) = Resolved tt
  /\ db w' = db w
  /\ accounts w' = accounts w
  /\ trace w' = (trace w ++ shown)%list
  /\ forallb (fun ev => negb (is_write ev)) shown = true.
Proof.
  intros w' question shown. subst w' shown.
  unfold AdminDashboard.handleDeleteUser, confirm, alert, bind, emit, outside, ret, logged.
  cbn. fold question.
  destruct (confirm_reply (ext w) question); cbn; rewrite <- ?app_assoc;
    repeat split; reflexivity.
Qed.

(** ** Trimming *)

Lemma list_ascii_app (a b : string) :
  list_ascii_of_string (a ++ b)
  = (list_ascii_of_string a ++ list_ascii_of_string b)%list.
Proof.
  induction a as [|x a IH]; [reflexivity|].
  change (x :: list_ascii_of_string (a ++ b)
          = x :: (list_ascii_of_string a ++ list_ascii_of_string b)%list).
  rewrite IH. reflexivity.
Qed.

Lemma string_of_list_app (l1 l2 : list ascii) :
  string_of_list_ascii (l1 ++ l2)%list = string_of_list_ascii l1 ++ string_of_list_ascii l2.
Proof.
  induction l1 as [|x l1 IH]; [reflexivity|].
  change (String x (string_of_list_ascii (l1 ++ l2)%list)
          = String x (string_of_list_ascii l1 ++ string_of_list_ascii l2)).
  rewrite IH. reflexivity.
Qed.

Lemma string_rev_app (a b : string) :
  JS.string_rev (a ++ b) = JS.string_rev b ++ JS.string_rev a.
Proof.
  unfold JS.string_rev. rewrite list_ascii_app, rev_app_distr. apply string_of_list_app.
Qed.

Lemma string_rev_involutive (s : string) : JS.string_rev (JS.string_rev s) = s.
Proof.
  unfold JS.string_rev.
  rewrite list_ascii_of_string_of_list_ascii, rev_involutive.
  apply string_of_list_ascii_of_string.
Qed.

Lemma strip_prefix_app (p : string) :
  forall s r, JS.strip_prefix p s = Some r -> s = p ++ r.
Proof.
  induction p as [|a p IH]; intros s r H.
  - destruct s; cbn in H; injection H as <-; reflexivity.
  - destruct s as [|b s]; cbn in H; [discriminate|].
    destruct (Ascii.eqb_spec a b) as [->|]; [|discriminate].
    rewrite (IH _ _ H). reflexivity.
Qed.

Lemma strip_prefix_none (p : string) :
  forall s, JS.strip_prefix p s = None -> String.prefix p s = false.
Proof.
  induction p as [|a p IH]; intros s H.
  - destruct s; cbn in H; discriminate.
  - destruct s as [|b s]; [reflexivity|]. cbn in H |- *.
    destruct (ascii_dec a b) as [->|Hne].
    + rewrite Ascii.eqb_refl in H. apply IH. exact H.
    + reflexivity.
Qed.

(** A removal takes one character of the table off the front. *)
Lemma strip_one_app (ws : list string) (s r : string) :
  JS.strip_one ws s = Some r -> exists p, In p ws /\ s = p ++ r.
Proof.
  induction ws as [|p ws IH]; cbn; [discriminate|].
  destruct (JS.strip_prefix p s) as [r'|] eqn:Hp.
  - intros H. injection H as ->. exists p. split; [left; reflexivity|].
    apply strip_prefix_app. exact Hp.
  - intros H. destruct (IH H) as [q [Hq Hs]]. exists q. split; [right; exact Hq | exact Hs].
Qed.

Lemma strip_one_none (ws : list string) (s : string) :
  JS.strip_one ws s = None -> forall p, In p ws -> String.prefix p s = false.
Proof.
  induction ws as [|q ws IH]; cbn; [contradiction|].
  destruct (JS.strip_prefix q s) as [r'|] eqn:Hq; [discriminate|].
  intros H p [<-|Hp].
  - apply strip_prefix_none. exact Hq.
  - apply IH; assumption.
Qed.

Lemma length_append (a b : string) :
  String.length (a ++ b) = (String.length a + String.length b)%nat.
Proof.
  induction a as [|x a IH]; [reflexivity|].
  change (S (String.length (a ++ b)) = S (String.length a + String.length b)).
  rewrite IH. reflexivity.
Qed.

Section TrimStart.

Variable ws : list string.
Hypothesis ws_nonempty : forallb (fun p => negb (String.eqb p "")) ws = true.

Lemma strip_one_shorter (s r : string) :
  JS.strip_one ws s = Some r -> (String.length r < String.length s)%nat.
Proof.
  intros H. destruct (strip_one_app _ _ _ H) as [p [Hp ->]].
  rewrite length_append.
  rewrite forallb_forall in ws_nonempty. specialize (ws_nonempty p Hp).
  destruct p; [discriminate | cbn; lia].
Qed.

(** With fuel for every character, the removal runs until no character of
    the table is in front. *)
Lemma trim_start_fuel_done (n : nat) :
  forall s, (String.length s <= n)%nat ->
            JS.strip_one ws (JS.trim_start_fuel ws n s) = None.
Proof.
  induction n as [|n IH]; intros s Hn.
  - destruct s; [|cbn in Hn; lia].
    cbn. clear Hn. induction ws as [|p l IHl]; [reflexivity|].
    cbn in ws_nonempty |- *. apply andb_true_iff in ws_nonempty as [Hp Hl].
    destruct p; [discriminate|]. cbn. apply IHl. exact Hl.
  - cbn. destruct (JS.strip_one ws s) as [r|] eqn:Hs; [|exact Hs].
    apply IH. apply strip_one_shorter in Hs. lia.
Qed.

Lemma trim_start_fuel_suffix (n : nat) :
  forall s, exists a, s = a ++ JS.trim_start_fuel ws n s.
Proof.
  induction n as [|n IH]; intros s.
  - exists "". reflexivity.
  - cbn. destruct (JS.strip_one ws s) as [r|] eqn:Hs; [|exists ""; reflexivity].
    destruct (strip_one_app _ _ _ Hs) as [p [_ Hp]].
    destruct (IH r) as [a Ha].
    exists (p ++ a). rewrite append_assoc, <- Ha. exact Hp.
Qed.

Lemma trim_start_with_clean (s p : string) :
  In p ws -> String.prefix p (JS.trim_start_with ws s) = false.
Proof.
  intros Hp. apply (strip_one_none ws); [|exact Hp].
  apply trim_start_fuel_done. lia.
Qed.

Lemma trim_start_with_suffix (s : string) :
  exists a, s = a ++ JS.trim_start_with ws s.
Proof. apply trim_start_fuel_suffix. Qed.

End TrimStart.

Lemma white_space_nonempty :
  forallb (fun p => negb (String.eqb p "")) JS.WHITE_SPACE = true.
Proof. reflexivity. Qed.

Lemma white_space_rev_nonempty :
  forallb (fun p => negb (String.eqb p "")) (map JS.string_rev JS.WHITE_SPACE) = true.
Proof. reflexivity. Qed.

(** What [trimEnd] keeps is the front of its argument. *)
Lemma trimEnd_prefix (s : string) : exists b, s = JS.trimEnd s ++ b.
Proof.
  unfold JS.trimEnd.
  destruct (trim_start_with_suffix (map JS.string_rev JS.WHITE_SPACE) (JS.string_rev s))
    as [a Ha].
  exists (JS.string_rev a).
  rewrite <- string_rev_app, <- Ha. symmetry. apply string_rev_involutive.
Qed.

Lemma trim_no_leading (s p : string) :
  In p JS.WHITE_SPACE -> String.prefix p (JS.trim s) = false.
Proof.
  intros Hp. unfold JS.trim.
  pose proof (trim_start_with_clean _ white_space_nonempty s p Hp) as Hclean.
  fold (JS.trimStart s) in Hclean.
  destruct (trimEnd_prefix (JS.trimStart s)) as [b Hb].
  destruct (String.prefix p (JS.trimEnd (JS.trimStart s))) eqn:H; [|reflexivity].
  apply (prefix_app_l _ _ b) in H. rewrite <- Hb in H. congruence.
Qed.

Lemma trim_no_trailing (s p : string) :
  In p JS.WHITE_SPACE -> JS.suffix p (JS.trim s) = false.
Proof.
  intros Hp. unfold JS.suffix, JS.trim, JS.trimEnd.
  rewrite string_rev_involutive.
  apply (trim_start_with_clean _ white_space_rev_nonempty).
  apply in_map. exact Hp.
Qed.

(** A trimmed string neither starts nor ends with white space. *)
Lemma trim_clean_ends (s : string) : clean_ends (JS.trim s) = true.
Proof.
  unfold clean_ends. apply forallb_forall. intros p Hp.
  rewrite (trim_no_leading s p Hp), (trim_no_trailing s p Hp). reflexivity.
Qed.

(** Trimming takes white space off both ends and nothing else. *)
Lemma trim_inside (s : string) : exists a b, s = a ++ JS.trim s ++ b.
Proof.
  destruct (trim_start_with_suffix JS.WHITE_SPACE s) as [a Ha].
  destruct (trimEnd_prefix (JS.trimStart s)) as [b Hb].
  exists a, b. unfold JS.trim. rewrite <- Hb. exact Ha.
Qed.

(** ** Saving the key (C9) *)

(** C9.  The save action returns without any call when the trimmed input
    is empty; otherwise the one value it writes to the [geminiApiKey] field
    is the trimmed input.  So every value it writes is a non-empty string
    with no white space at either end; when the store accepts the write,
    that value is the stored key, and when it refuses, the store is
    unchanged. *)
Theorem saved_key_is_trimmed (st : AdminDashboard.State) (w : World) :
  let key := JS.trim (AdminDashboard.newGeminiKey st) in
  let w' := snd (AdminDashboard.handleSaveGeminiKey st w) in
  let written := match key with EmptyString => [] | String _ _ => [key] end in
  config_writes (trace w') = (config_writes (trace w) ++ written)%list
  /\ forallb (fun v => negb (String.eqb v "") && clean_ends v) written = true
  /\ match key with
     | EmptyString => AdminDashboard.handleSaveGeminiKey st w = (Resolved st, w)
     | String _ _ =>
         match setDoc_error (ext w) with
         | None => settings_global_config (db w') = Some {| geminiApiKey := Some key |}
         | Some _ => db w' = db w
         end
     end.
Proof.
  intros key w' written. subst w' written.
  pose proof (trim_clean_ends (AdminDashboard.newGeminiKey st)) as Hclean.
  fold key in Hclean.
  assert (Hwritten :
            forallb (fun v => negb (String.eqb v "") && clean_ends v)
              match key with EmptyString => [] | String _ _ => [key] end = true).
  { destruct key as [|c r]; [reflexivity|].
    cbn [forallb]. rewrite Hclean. reflexivity. }
  split; [|split; [exact Hwritten|]]; clear Hwritten Hclean;
    unfold AdminDashboard.handleSaveGeminiKey;
    change (AdminDashboard.newGeminiKey (AdminDashboard.setKeyLoading true st))
      with (AdminDashboard.newGeminiKey st);
    fold key; destruct key as [|c r]; cbn [JS.truthy negb];
    try (cbn; rewrite ?app_nil_r; reflexivity);
    unfold AdminDashboard.loadGlobalConfig, Store.setDoc_global_config_merge,
      Store.getDoc_global_config, alert, console_error;
    unfold bind, try_catch, emit, outside, throw, ret, set_db, logged; cbn;
    destruct (setDoc_error (ext w)) as [err|]; cbn;
    try destruct (getDoc_error (ext w)) as [err'|]; cbn;
    rewrite ?config_writes_app; cbn; rewrite ?app_nil_r; reflexivity.
Qed.

Example save_trims :
  let r := AdminDashboard.handleSaveGeminiKey
             {| AdminDashboard.geminiKeyStatus := None;
                AdminDashboard.newGeminiKey := "  AIza-123 " ++ JS.nl;
                AdminDashboard.keyLoading := false |}
             (world_of quiet) in
  config_writes (trace (snd r)) = ["AIza-123"]
  /\ settings_global_config (db (snd r)) = Some {| geminiApiKey := Some "AIza-123" |}
  /\ fst r = Resolved {| AdminDashboard.geminiKeyStatus := Some "Active Key: •••••••••-123";
                         AdminDashboard.newGeminiKey := "";
                         AdminDashboard.keyLoading := false |}.
Proof. cbv zeta. repeat split; reflexivity. Qed.

Example save_blank :
  let st := {| AdminDashboard.geminiKeyStatus := None;
               AdminDashboard.newGeminiKey := "   ";
               AdminDashboard.keyLoading := false |} in
  AdminDashboard.handleSaveGeminiKey st (world_of quiet) = (Resolved st, world_of quiet).
Proof. reflexivity. Qed.

Example save_refused :
  let r := AdminDashboard.handleSaveGeminiKey
             {| AdminDashboard.geminiKeyStatus := None;
                AdminDashboard.newGeminiKey := "k";
                AdminDashboard.keyLoading := false |}
             (world_of write_refused) in
  trace (snd r)
  = [EvSetConfig "k"; EvConsole "error" "permission-denied"; EvAlert "❌ Error saving key"]
  /\ db (snd r) = empty_db.
Proof. cbv zeta. split; reflexivity. Qed.

(** * Further properties *)

(** ** The cleanup of the answer *)

Lemma replace_all_other (pat rep : string) (c : ascii) (r : string) :
  String.prefix pat (String c r) = false ->
  JS.replace_all pat rep (String c r) = String c (JS.replace_all pat rep r).
Proof. intros H. unfold JS.replace_all. cbn [JS.replace_from]. rewrite H. reflexivity. Qed.

Lemma replace_from_skip (pat rep a : string) :
  forall r, JS.replace_from pat rep (String.length a) (a ++ r) = JS.replace_from pat rep 0 r.
Proof.
  induction a as [|x a IH]; intros r; [reflexivity|].
  change (JS.replace_from pat rep (String.length a) (a ++ r) = JS.replace_from pat rep 0 r).
  apply IH.
Qed.

Lemma replace_all_match (c : ascii) (p rep r : string) :
  JS.replace_all (String c p) rep (String c p ++ r)
  = rep ++ JS.replace_all (String c p) rep r.
Proof.
  unfold JS.replace_all.
  change (String c p ++ r) with (String c (p ++ r)). cbn [JS.replace_from].
  change (String c (p ++ r)) with (String c p ++ r). rewrite prefix_app.
  change (String.length (String c p) - 1)%nat with (String.length p - 0)%nat.
  rewrite Nat.sub_0_r. change (String c p ++ r) with (String c (p ++ r)).
  rewrite replace_from_skip. reflexivity.
Qed.

(** A text in which the pattern does not occur is left as it is. *)
Lemma replace_all_absent (pat rep s : string) :
  JS.includes pat s = false -> JS.replace_all pat rep s = s.
Proof.
  induction s as [|c s IH]; [reflexivity|].
  rewrite includes_unfold. intros H. apply orb_false_iff in H as [H1 H2].
  rewrite (replace_all_other _ _ _ _ H1), (IH H2). reflexivity.
Qed.

(** A text without three back-quotes in a row comes out of the cleanup
    unchanged. *)
Lemma stripFences_identity (s : string) :
  JS.includes "```" s = false ->
  GeminiService.stripFences s = s /\ GeminiServiceChat.stripFences s = s.
Proof.
  intros H.
  assert (Hs : GeminiService.stripFences s = s).
  { unfold GeminiService.stripFences.
    rewrite (replace_all_absent "```html" "" s).
    - apply replace_all_absent. exact H.
    - apply (includes_longer "```"); [reflexivity | exact H]. }
  split; exact Hs.
Qed.

Lemma stripFences_identity_witness :
  JS.includes "```" "<div class='response-card'>`x`</div>" = false
  /\ GeminiService.stripFences "<div class='response-card'>`x`</div>"
     = "<div class='response-card'>`x`</div>".
Proof.
  assert (H : JS.includes "```" "<div class='response-card'>`x`</div>" = false)
    by (vm_compute; reflexivity).
  split; [exact H|].
  exact (proj1 (stripFences_identity "<div class='response-card'>`x`</div>" H)).
Defined.

(** X2.  Cleaning a cleaned text changes nothing. *)
Theorem stripFences_idempotent (s : string) :
  GeminiService.stripFences (GeminiService.stripFences s) = GeminiService.stripFences s.
Proof.
  assert (H : JS.includes "```" (GeminiService.stripFences s) = false)
    by (unfold GeminiService.stripFences; apply strip_clean).
  unfold GeminiService.stripFences at 1.
  rewrite (replace_all_absent "```html" "" (GeminiService.stripFences s)).
  - apply replace_all_absent. exact H.
  - apply (includes_longer "```"); [reflexivity | exact H].
Qed.

Lemma replace_from_sublist (pat s : string) :
  forall k,
    sublist (list_ascii_of_string (JS.replace_from pat "" k s)) (list_ascii_of_string s).
Proof.
  induction s as [|c s IH]; intros k; [apply sublist_nil|].
  cbn [JS.replace_from]. destruct k as [|k].
  - destruct (String.prefix pat (String c s)).
    + change ("" ++ JS.replace_from pat "" (String.length pat - 1) s)
        with (JS.replace_from pat "" (String.length pat - 1) s).
      apply sublist_cons. apply IH.
    + apply sublist_skip. apply IH.
  - apply sublist_cons. apply IH.
Qed.

Lemma filter_pattern (keep : ascii -> bool) (pat : string) :
  forallb (fun c => negb (keep c)) (list_ascii_of_string pat) = true ->
  List.filter keep (list_ascii_of_string pat) = [].
Proof.
  induction pat as [|c pat IH]; [reflexivity|].
  cbn. intros H. apply andb_true_iff in H as [Hc Hp].
  destruct (keep c); [discriminate | apply IH; exact Hp].
Qed.

Lemma replace_all_keeps_upto (keep : ascii -> bool) (c0 : ascii) (p0 : string) (n : nat) :
  forallb (fun c => negb (keep c)) (list_ascii_of_string (String c0 p0)) = true ->
  forall s, (String.length s <= n)%nat ->
    List.filter keep (list_ascii_of_string (JS.replace_all (String c0 p0) "" s))
    = List.filter keep (list_ascii_of_string s).
Proof.
  intros Hpat. induction n as [|n IH]; intros s Hn.
  - destruct s; [reflexivity | cbn in Hn; lia].
  - destruct s as [|c r]; [reflexivity|].
    destruct (String.prefix (String c0 p0) (String c r)) eqn:Hp.
    + destruct (prefix_inv _ _ Hp) as [r' Hr].
      assert (Hl : (String.length r' <= n)%nat).
      { apply (f_equal String.length) in Hr. rewrite length_append in Hr.
        cbn in Hr, Hn. lia. }
      rewrite Hr, replace_all_match.
      change ("" ++ JS.replace_all (String c0 p0) "" r')
        with (JS.replace_all (String c0 p0) "" r').
      rewrite (IH r' Hl), list_ascii_app, List.filter_app.
      rewrite (filter_pattern keep _ Hpat). reflexivity.
    + rewrite (replace_all_other _ _ _ _ Hp).
      change (List.filter keep (c :: list_ascii_of_string (JS.replace_all (String c0 p0) "" r))
              = List.filter keep (c :: list_ascii_of_string r)).
      cbn [List.filter]. rewrite (IH r); [reflexivity | cbn in Hn; lia].
Qed.

(** X3.  The cleanup only deletes: the cleaned text is the answer with some
    characters left out, in the same order, and the characters left out are
    back-quotes and letters of [html] only. *)
Theorem stripFences_only_deletes (s : string) :
  sublist (list_ascii_of_string (GeminiService.stripFences s)) (list_ascii_of_string s)
  /\ List.filter (fun c => negb (fence_char c)) (list_ascii_of_string (GeminiService.stripFences s))
     = List.filter (fun c => negb (fence_char c)) (list_ascii_of_string s).
Proof.
  unfold GeminiService.stripFences, JS.replace_all. split.
  - etransitivity; apply replace_from_sublist.
  - fold (JS.replace_all "```html" "" s).
    fold (JS.replace_all "```" "" (JS.replace_all "```html" "" s)).
    rewrite (replace_all_keeps_upto (fun c => negb (fence_char c)) "`" "``"
               _ eq_refl _ (Nat.le_refl _)).
    apply (replace_all_keeps_upto (fun c => negb (fence_char c)) "`" "``html"
             _ eq_refl _ (Nat.le_refl _)).
Qed.

Example stripFences_ex :
  GeminiService.stripFences ("```html" ++ JS.nl ++ "<p>ok</p>" ++ JS.nl ++ "```")
  = JS.nl ++ "<p>ok</p>" ++ JS.nl.
Proof. reflexivity. Qed.

(** ** One request, nothing stored *)

Lemma client_events_read_only (warning : string) (w : World) :
  forallb (fun ev => negb (is_write ev)) (client_events warning w) = true.
Proof. unfold client_events. destruct (getDoc_error (ext w)); reflexivity. Qed.

(** X4.  An invocation changes neither the store nor the accounts.  The
    calls it makes are, in this order: one read of the config document, a
    console warning when that read fails, and one request to the generation
    API, with the resolved key.  It writes nothing. *)
Theorem invoke_stores_nothing (i : Invocation) (w : World) :
  let calls_made :=
    (EvGetConfig
     :: match getDoc_error (ext w) with
        | Some _ => [EvConsole "warn" "Using environment fallback key."]
        | None => []
        end
     ++ [EvGenerateContent (expected_key w) (request_of (ext w) i)])%list in
  trace (snd (invoke i w)) = (trace w ++ calls_made)%list
  /\ forallb (fun ev => negb (is_write ev)) calls_made = true
  /\ db (snd (invoke i w)) = db w
  /\ accounts (snd (invoke i w)) = accounts w.
Proof.
  intros calls_made. subst calls_made. rewrite invoke_run. unfold client_events.
  cbn [snd logged trace db accounts].
  destruct (getDoc_error (ext w)); repeat split; reflexivity.
Qed.

(** X5.  A failure of the generation API is passed on to the caller as it
    is, after the one request: nothing is retried and no fallback text is
    returned. *)
Theorem invoke_failure (i : Invocation) (w : World) (e : Error) :
  generateContent_reply (ext w) (expected_key w) (request_of (ext w) i) = Rejected e ->
  fst (invoke i w) = Rejected e
  /\ generateContent_requests (trace (snd (invoke i w)))
     = (generateContent_requests (trace w) ++ [request_of (ext w) i])%list.
Proof.
  intros H. split; [|apply invoke_requests].
  rewrite invoke_run, H. reflexivity.
Qed.

Lemma invoke_failure_witness :
  fst (invoke (GetPorondamReading
                 {| groomName := "A"; groomNakshatra := "Aswida";
                    brideName := "B"; brideNakshatra := "Berana" |} "en")
         (world_of api_down))
  = Rejected "quota-exceeded".
Proof.
  apply (invoke_failure
           (GetPorondamReading
              {| groomName := "A"; groomNakshatra := "Aswida";
                 brideName := "B"; brideNakshatra := "Berana" |} "en")
           (world_of api_down) "quota-exceeded").
  reflexivity.
Defined.

(** ** The history *)

Lemma history_turns (f : Role -> Role) (history : list ChatMessage) :
  let turns :=
    map (fun msg =>
           {| role := f (msg_role msg);
              parts := TextPart (msg_text msg)
                       :: map GeminiService.inlineData
                            (match msg_images msg with Some l => l | None => [] end) |})
      history in
  map role turns = map (fun msg => f (msg_role msg)) history
  /\ map (fun t => part_texts (parts t)) turns = map (fun msg => [msg_text msg]) history.
Proof.
  induction history as [|msg history [IH1 IH2]]; [split; reflexivity|].
  cbn zeta in IH1, IH2 |- *. cbn [map role parts]. rewrite IH1, IH2.
  split; [reflexivity|]. f_equal.
  change (msg_text msg
          :: part_texts
               (map GeminiService.inlineData
                  (match msg_images msg with Some l => l | None => [] end))
          = [msg_text msg]).
  rewrite part_texts_images. reflexivity.
Qed.

(** X6.  [analyzeHoroscopeAdvanced] replays the whole history before the new
    turn: one turn per message, in the order of the history, each with the
    role and the text of its message, and then the new turn, of role user.
    No message is dropped, whatever the length of the history. *)
Theorem history_replayed
  (dateString timeString : string) (images : list string) (userMessage : string)
  (history : list ChatMessage) (outputLang : Language) :
  exists replayed current cfg message,
    gc_contents
      (GeminiService.analyzeHoroscopeAdvanced_request
         dateString timeString images userMessage history outputLang)
    = ContentsTurns (replayed ++ [current])%list
    /\ GeminiServiceChat.analyzeHoroscopeAdvanced_call
         dateString timeString images userMessage history outputLang
       = SendMessage replayed cfg message
    /\ map role replayed = map msg_role history
    /\ map (fun t => part_texts (parts t)) replayed = map (fun msg => [msg_text msg]) history
    /\ role current = role_user.
Proof.
  eexists. eexists. eexists. eexists.
  split; [reflexivity|].
  split.
  - unfold GeminiServiceChat.analyzeHoroscopeAdvanced_call. cbv zeta. f_equal.
    apply map_ext. intros msg. destruct (msg_role msg); reflexivity.
  - destruct (history_turns (fun r => r) history) as [H1 H2]. cbv zeta in H1, H2.
    split; [|split; [exact H2 | reflexivity]].
    rewrite H1. reflexivity.
Qed.

(** ** The save action *)

(** What the save action does, case by case. *)
Lemma handleSaveGeminiKey_run (st : AdminDashboard.State) (w : World) :
  AdminDashboard.handleSaveGeminiKey st w =
  match JS.trim (AdminDashboard.newGeminiKey st) with
  | EmptyString => (Resolved st, w)
  | String c r =>
      let key := String c r in
      match setDoc_error (ext w) with
      | Some err =>
          (Resolved {| AdminDashboard.geminiKeyStatus := AdminDashboard.geminiKeyStatus st;
                       AdminDashboard.newGeminiKey := AdminDashboard.newGeminiKey st;
                       AdminDashboard.keyLoading := false |},
           logged [EvSetConfig key; EvConsole "error" err; EvAlert "❌ Error saving key"] w)
      | None =>
          let w1 :=
            {| ext := ext w;
               db := {| settings_global_config := Some {| geminiApiKey := Some key |};
                        users := users (db w) |};
               accounts := accounts w;
               trace := trace w |} in
          match getDoc_error (ext w) with
          | Some _ =>
              (Resolved {| AdminDashboard.geminiKeyStatus := AdminDashboard.geminiKeyStatus st;
                           AdminDashboard.newGeminiKey := "";
                           AdminDashboard.keyLoading := false |},
               logged [EvSetConfig key; EvAlert "✅ Gemini API Key Saved Successfully!";
                       EvGetConfig; EvConsole "error" "Error loading config"] w1)
          | None =>
              (Resolved {| AdminDashboard.geminiKeyStatus :=
                             Some ("Active Key: •••••••••" ++ JS.slice_last 4 key);
                           AdminDashboard.newGeminiKey := "";
                           AdminDashboard.keyLoading := false |},
               logged [EvSetConfig key; EvAlert "✅ Gemini API Key Saved Successfully!"; EvGetConfig] w1)
          end
      end
  end.
Proof.
  unfold AdminDashboard.handleSaveGeminiKey.
  change (AdminDashboard.newGeminiKey (AdminDashboard.setKeyLoading true st))
    with (AdminDashboard.newGeminiKey st).
  destruct (JS.trim (AdminDashboard.newGeminiKey st)) as [|c r]; [reflexivity|].
  cbn [JS.truthy negb].
  unfold AdminDashboard.loadGlobalConfig, Store.setDoc_global_config_merge,
    Store.getDoc_global_config, alert, console_error.
  unfold bind, try_catch, emit, outside, throw, ret, set_db, logged. cbn.
  destruct (setDoc_error (ext w)) as [err|]; cbn.
  - rewrite <- !app_assoc. reflexivity.
  - destruct (getDoc_error (ext w)) as [err'|]; cbn; rewrite <- !app_assoc; reflexivity.
Qed.

Lemma alerts_shown_app (a b : list Event) :
  alerts_shown (a ++ b)%list = (alerts_shown a ++ alerts_shown b)%list.
Proof.
  induction a as [|ev a IH]; [reflexivity|].
  destruct ev; cbn; rewrite ?IH; reflexivity.
Qed.

(** X7.  The save action never rejects and always ends with [keyLoading]
    off.  When the store refuses the write, the store is unchanged, the
    error alert is shown and the typed key and the status are kept; when the
    store accepts it, the success alert is shown and the input is emptied. *)
Theorem save_outcome (st : AdminDashboard.State) (w : World) :
  JS.trim (AdminDashboard.newGeminiKey st) <> "" ->
  let w' := snd (AdminDashboard.handleSaveGeminiKey st w) in
  exists st',
    fst (AdminDashboard.handleSaveGeminiKey st w) = Resolved st'
    /\ AdminDashboard.keyLoading st' = false
    /\ match setDoc_error (ext w) with
       | Some _ =>
           db w' = db w
           /\ alerts_shown (trace w') = (alerts_shown (trace w) ++ ["❌ Error saving key"])%list
           /\ AdminDashboard.newGeminiKey st' = AdminDashboard.newGeminiKey st
           /\ AdminDashboard.geminiKeyStatus st' = AdminDashboard.geminiKeyStatus st
       | None =>
           alerts_shown (trace w')
           = (alerts_shown (trace w) ++ ["✅ Gemini API Key Saved Successfully!"])%list
           /\ AdminDashboard.newGeminiKey st' = ""
       end.
Proof.
  intros Hkey w'. subst w'. rewrite handleSaveGeminiKey_run.
  destruct (JS.trim (AdminDashboard.newGeminiKey st)) as [|c r]; [congruence|].
  cbv zeta. destruct (setDoc_error (ext w)) as [err|].
  - eexists. split; [reflexivity|]. split; [reflexivity|].
    cbn [snd logged trace db]. rewrite alerts_shown_app. repeat split; reflexivity.
  - destruct (getDoc_error (ext w)) as [err|]; eexists;
      (split; [reflexivity|]); (split; [reflexivity|]);
      cbn [snd logged trace]; rewrite alerts_shown_app; split; reflexivity.
Qed.

Lemma save_outcome_witness :
  exists st',
    fst (AdminDashboard.handleSaveGeminiKey (key_form " AIza-9 ") (world_of write_refused))
    = Resolved st'
    /\ AdminDashboard.newGeminiKey st' = " AIza-9 ".
Proof.
  destruct (save_outcome (key_form " AIza-9 ") (world_of write_refused))
    as [st' [H1 [_ H3]]]; [vm_compute; discriminate|].
  exists st'. split; [exact H1|].
  cbn in H3. exact (proj1 (proj2 (proj2 H3))).
Defined.

(** X8.  A saved key is the key of the next request.  After a save that the
    store accepts, the resolver gives the trimmed input as the key, in
    place of the environment default, and the next invocation sends its
    request with that key. *)
Theorem saved_key_reaches_the_api (st : AdminDashboard.State) (i : Invocation) (w : World) :
  JS.trim (AdminDashboard.newGeminiKey st) <> "" ->
  setDoc_error (ext w) = None ->
  getDoc_error (ext w) = None ->
  let w' := snd (AdminDashboard.handleSaveGeminiKey st w) in
  fst (GeminiService.getAIClient w')
  = Resolved {| GeminiService.apiKey := JS.trim (AdminDashboard.newGeminiKey st) |}
  /\ trace (snd (invoke i w'))
     = (trace w'
        ++ [EvGetConfig;
            EvGenerateContent (JS.trim (AdminDashboard.newGeminiKey st))
              (request_of (ext w) i)])%list.
Proof.
  intros Hkey Hset Hget w'. subst w'.
  rewrite handleSaveGeminiKey_run, Hset, Hget.
  destruct (JS.trim (AdminDashboard.newGeminiKey st)) as [|c r]; [congruence|].
  cbv zeta. cbn [snd]. rewrite getAIClient_run, invoke_run.
  unfold expected_key, config_read, client_events. cbn. rewrite Hget. cbn.
  split; reflexivity.
Qed.

Lemma saved_key_reaches_the_api_witness :
  fst (GeminiService.getAIClient
         (snd (AdminDashboard.handleSaveGeminiKey (key_form " AIza-9 ") (world_of quiet))))
  = Resolved {| GeminiService.apiKey := "AIza-9" |}.
Proof.
  exact (proj1 (saved_key_reaches_the_api (key_form " AIza-9 ")
                  (GetHoroscopeReading sample_birth "si") (world_of quiet)
                  ltac:(vm_compute; discriminate) eq_refl eq_refl)).
Defined.

(** ** Keys without white space around them *)

Lemma strip_prefix_of_prefix (p : string) :
  forall s, String.prefix p s = false -> JS.strip_prefix p s = None.
Proof.
  induction p as [|a p IH]; intros s H.
  - rewrite prefix_nil in H. discriminate.
  - destruct s as [|b s]; [reflexivity|]. cbn in H |- *.
    destruct (ascii_dec a b) as [->|Hne].
    + rewrite Ascii.eqb_refl. apply IH. exact H.
    + destruct (Ascii.eqb_spec a b); [contradiction | reflexivity].
Qed.

Lemma strip_one_of_prefix (ws : list string) (s : string) :
  forallb (fun p => negb (String.prefix p s)) ws = true -> JS.strip_one ws s = None.
Proof.
  induction ws as [|p ws IH]; [reflexivity|].
  cbn. intros H. apply andb_true_iff in H as [Hp Hws].
  rewrite strip_prefix_of_prefix; [apply IH; exact Hws|].
  destruct (String.prefix p s); [discriminate | reflexivity].
Qed.

Lemma trim_start_with_fixed (ws : list string) (s : string) :
  forallb (fun p => negb (String.prefix p s)) ws = true -> JS.trim_start_with ws s = s.
Proof.
  intros H. unfold JS.trim_start_with.
  destruct (String.length s); [reflexivity|].
  cbn. rewrite (strip_one_of_prefix _ _ H). reflexivity.
Qed.

(** A string with no white space at its ends is its own trimming. *)
Lemma trim_fixed (s : string) : clean_ends s = true -> JS.trim s = s.
Proof.
  unfold clean_ends. intros H. rewrite forallb_forall in H.
  unfold JS.trim, JS.trimStart.
  rewrite (trim_start_with_fixed JS.WHITE_SPACE s).
  2:{ apply forallb_forall. intros p Hp. specialize (H p Hp).
      apply andb_true_iff in H as [H _]. exact H. }
  unfold JS.trimEnd. rewrite trim_start_with_fixed; [apply string_rev_involutive|].
  apply forallb_forall. intros q Hq. apply in_map_iff in Hq as [p [<- Hp]].
  specialize (H p Hp). apply andb_true_iff in H as [_ H]. exact H.
Qed.

Lemma trim_idempotent (s : string) : JS.trim (JS.trim s) = JS.trim s.
Proof. apply trim_fixed. apply trim_clean_ends. Qed.

(** X9.  A key typed without white space around it is written exactly as it
    was typed. *)
Theorem clean_key_stored_as_typed (st : AdminDashboard.State) (w : World) :
  AdminDashboard.newGeminiKey st <> "" ->
  clean_ends (AdminDashboard.newGeminiKey st) = true ->
  config_writes (trace (snd (AdminDashboard.handleSaveGeminiKey st w)))
  = (config_writes (trace w) ++ [AdminDashboard.newGeminiKey st])%list.
Proof.
  intros Hne Hclean. rewrite handleSaveGeminiKey_run, (trim_fixed _ Hclean).
  destruct (AdminDashboard.newGeminiKey st) as [|c r]; [congruence|].
  cbv zeta. destruct (setDoc_error (ext w)) as [err|];
    [|destruct (getDoc_error (ext w)) as [err|]];
    cbn [snd logged trace]; rewrite config_writes_app; reflexivity.
Qed.

Lemma clean_key_stored_as_typed_witness :
  config_writes (trace (snd (AdminDashboard.handleSaveGeminiKey (key_form "AIza 9")
                               (world_of quiet))))
  = ["AIza 9"].
Proof.
  exact (clean_key_stored_as_typed (key_form "AIza 9") (world_of quiet)
           ltac:(vm_compute; discriminate) ltac:(vm_compute; reflexivity)).
Defined.

(** ** The derived user *)

(** X10.  The name of the derived user is never empty: it is the display
    name when there is a non-empty one, else the part of the email before
    its first [@] when that is not empty, else [User]. *)
Theorem derived_name_nonempty (fu : FirebaseUser.t) (st : AuthContext.State) :
  exists u,
    AuthContext.user (AuthContext.onAuthStateChanged (Some fu) st) = Some u
    /\ AuthContext.name u <> ""
    /\ AuthContext.name u
       = match FirebaseUser.displayName fu with
         | Some (String c r) => String c r
         | _ =>
             match FirebaseUser.email fu with
             | Some e =>
                 match JS.before_first "@" e with
                 | EmptyString => "User"
                 | String c r => String c r
                 end
             | None => "User"
             end
         end.
Proof.
  eexists. split; [reflexivity|]. cbn [AuthContext.name].
  assert (Hemail :
            forall e, JS.or_default (JS.index (JS.split "@" e) 0) "User"
                      = match JS.before_first "@" e with
                        | EmptyString => "User"
                        | String c r => String c r
                        end).
  { intros e. rewrite split_head. reflexivity. }
  destruct (FirebaseUser.displayName fu) as [[|c r]|]; cbn [JS.or_else JS.or_default].
  - destruct (FirebaseUser.email fu) as [e|].
    + rewrite Hemail. split; [|reflexivity].
      destruct (JS.before_first "@" e); discriminate.
    + split; [discriminate | reflexivity].
  - split; [discriminate | reflexivity].
  - destruct (FirebaseUser.email fu) as [e|].
    + rewrite Hemail. split; [|reflexivity].
      destruct (JS.before_first "@" e); discriminate.
    + split; [discriminate | reflexivity].
Qed.

Example name_of_bare_domain :
  option_map AuthContext.name
    (AuthContext.user
       (AuthContext.onAuthStateChanged
          (Some {| FirebaseUser.uid := "u1"; FirebaseUser.displayName := Some "";
                   FirebaseUser.email := Some "@example.org" |})
          {| AuthContext.user := None; AuthContext.loading := true |}))
  = Some "User".
Proof. reflexivity. Qed.

(** ** Signup, the other cases *)

(** X11.  When the registration and the write both succeed, [signup]
    resolves, the document [users/{uid}] holds the given name and email under
    the uid the provider gave, and every other document is as before. *)
Theorem signup_writes_one_profile (name email password uid : string) (w : World) :
  createUser_reply (ext w) email password = inr uid ->
  setDoc_error (ext w) = None ->
  let w' := snd (AuthContext.signup name email password w) in
  fst (AuthContext.signup name email password w) = Resolved tt
  /\ users (db w') !! uid
     = Some {| Profile.uid := uid; Profile.name := name; Profile.email := email;
               Profile.joinedAt := now_toISOString (ext w) |}
  /\ (forall other, other <> uid -> users (db w') !! other = users (db w) !! other)
  /\ settings_global_config (db w') = settings_global_config (db w).
Proof.
  intros Hcreate Hwrite w'. subst w'. rewrite signup_run, Hcreate, Hwrite. cbn.
  split; [reflexivity|]. split; [apply lookup_insert_eq|].
  split; [|reflexivity].
  intros other Hother. apply lookup_insert_ne. congruence.
Qed.

Lemma signup_writes_one_profile_witness :
  users (db (snd (AuthContext.signup "Ann" "ann@example.org" "secret" (world_of quiet))))
    !! "uid-ann@example.org"
  = Some {| Profile.uid := "uid-ann@example.org"; Profile.name := "Ann";
            Profile.email := "ann@example.org";
            Profile.joinedAt := "2024-01-01T10:00:00.000Z" |}.
Proof.
  exact (proj1 (proj2 (signup_writes_one_profile "Ann" "ann@example.org" "secret"
                         "uid-ann@example.org" (world_of quiet) eq_refl eq_refl))).
Defined.

(** X12.  When the registration is refused, [signup] rejects with the
    provider's error and makes no other call: no profile is written and the
    store and the accounts are as before. *)
Theorem signup_refused_writes_nothing (name email password err : string) (w : World) :
  createUser_reply (ext w) email password = inl err ->
  let w' := snd (AuthContext.signup name email password w) in
  fst (AuthContext.signup name email password w) = Rejected err
  /\ trace w' = (trace w ++ [EvCreateUser email password])%list
  /\ db w' = db w
  /\ accounts w' = accounts w.
Proof.
  intros Hcreate w'. subst w'. rewrite signup_run, Hcreate.
  repeat split; reflexivity.
Qed.

Lemma signup_refused_writes_nothing_witness :
  fst (AuthContext.signup "Ann" "ann@example.org" "secret" (world_of signup_refused))
  = Rejected "auth/email-already-in-use".
Proof.
  exact (proj1 (signup_refused_writes_nothing "Ann" "ann@example.org" "secret"
                  "auth/email-already-in-use" (world_of signup_refused) eq_refl)).
Defined.

(** ** The key panel *)

(** X13.  Loading the config never rejects and changes nothing but the
    status: when the read succeeds and the field is a non-empty string the
    status becomes the label [Active Key: •••••••••] followed by the last four
    characters of the stored key; it becomes empty when the document or the
    field is missing or empty; and it is left as it was when the read fails.
    The Delete Key button is shown exactly when the status is set. *)
Theorem loadGlobalConfig_status (st : AdminDashboard.State) (w : World) :
  exists st',
    fst (AdminDashboard.loadGlobalConfig st w) = Resolved st'
    /\ db (snd (AdminDashboard.loadGlobalConfig st w)) = db w
    /\ AdminDashboard.newGeminiKey st' = AdminDashboard.newGeminiKey st
    /\ AdminDashboard.keyLoading st' = AdminDashboard.keyLoading st
    /\ match config_read w with
       | ReadFails _ =>
           AdminDashboard.geminiKeyStatus st' = AdminDashboard.geminiKeyStatus st
       | ReadFound (Some (String c r)) =>
           AdminDashboard.geminiKeyStatus st'
           = Some ("Active Key: •••••••••" ++ JS.slice_last 4 (String c r))
           /\ AdminPanel.deleteKeyShown st' = true
       | ReadFound (Some EmptyString) | ReadFound None | ReadMissing =>
           AdminDashboard.geminiKeyStatus st' = None
           /\ AdminPanel.deleteKeyShown st' = false
       end.
Proof.
  unfold AdminDashboard.loadGlobalConfig, Store.getDoc_global_config, console_error, config_read.
  unfold bind, try_catch, emit, outside, throw, ret, logged. cbn -[JS.slice_last].
  destruct (getDoc_error (ext w)) as [err|]; cbn -[JS.slice_last].
  - eexists. repeat split; reflexivity.
  - destruct (settings_global_config (db w)) as [[[[|c r]|]]|]; cbn -[JS.slice_last];
      eexists; repeat split; reflexivity.
Qed.

Example status_label :
  option_map AdminDashboard.geminiKeyStatus
    (match AdminDashboard.loadGlobalConfig (key_form "")
             (with_config (Some {| geminiApiKey := Some "AIzaSyD-1234abcd" |})
                (world_of quiet)) with
     | (Resolved st, _) => Some st
     | (Rejected _, _) => None
     end)
  = Some (Some "Active Key: •••••••••abcd").
Proof. reflexivity. Qed.

Example slice_last_short : JS.slice_last 4 "abc" = "abc".
Proof. reflexivity. Qed.

Example slice_last_sinhala : JS.slice_last 4 "key-හඳහන" = "හඳහන".
Proof. reflexivity. Qed.

(** Four bytes of UTF-8 are two code units: the slice can start inside a
    character, with its low surrogate (U+DE00 here). *)
Example slice_last_surrogate :
  JS.slice_last 4 (JS.bytes [97; 240; 159; 152; 128; 240; 159; 152; 128; 98])
  = JS.bytes [237; 184; 128; 240; 159; 152; 128; 98].
Proof. reflexivity. Qed.

(** X14.  When the Save button is enabled, a click writes: the action makes
    exactly one write to the config document, of the trimmed input.  When
    the input is blank the button is disabled. *)
Theorem save_enabled_writes (st : AdminDashboard.State) (w : World) :
  AdminPanel.saveDisabled st = false ->
  JS.trim (AdminDashboard.newGeminiKey st) <> ""
  /\ config_writes (trace (snd (AdminDashboard.handleSaveGeminiKey st w)))
     = (config_writes (trace w) ++ [JS.trim (AdminDashboard.newGeminiKey st)])%list.
Proof.
  unfold AdminPanel.saveDisabled. intros H. apply orb_false_iff in H as [H _].
  rewrite handleSaveGeminiKey_run.
  destruct (JS.trim (AdminDashboard.newGeminiKey st)) as [|c r]; [discriminate|].
  split; [discriminate|].
  cbv zeta. destruct (setDoc_error (ext w)) as [err|];
    [|destruct (getDoc_error (ext w)) as [err|]];
    cbn [snd logged trace]; rewrite config_writes_app; reflexivity.
Qed.

Lemma save_enabled_writes_witness :
  AdminPanel.saveDisabled (key_form " AIza-9 ") = false
  /\ config_writes (trace (snd (AdminDashboard.handleSaveGeminiKey (key_form " AIza-9 ")
                                  (world_of quiet))))
     = ["AIza-9"].
Proof.
  split; [reflexivity|].
  exact (proj2 (save_enabled_writes (key_form " AIza-9 ") (world_of quiet) eq_refl)).
Defined.

Example save_disabled_when_blank :
  AdminPanel.saveDisabled (key_form (" " ++ JS.nl)) = true.
Proof. reflexivity. Qed.

(** ** Logout *)

(** X15.  [logout] never rejects and touches no document.  When the sign-out
    succeeds the local user is cleared; when it fails the error is logged
    and the local state is left as it was, so the user stays signed in. *)
Theorem logout_outcome (st : AuthContext.State) (s : Session) :
  let s' := snd (AuthProvider.logout st s) in
  exists st',
    fst (AuthProvider.logout st s) = Resolved st'
    /\ calls s' = (calls s ++ [CallSignOut])%list
    /\ db (world s') = db (world s)
    /\ match signOut_error s with
       | None => AuthContext.user st' = None /\ world s' = world s
       | Some _ =>
           st' = st
           /\ trace (world s')
              = (trace (world s) ++ [EvConsole "error" "Logout Error:"])%list
       end.
Proof.
  intros s'. subst s'.
  unfold AuthProvider.logout, signOut, try_catch_n, bind_n, call, here, throw_n, ret_n,
    lift, with_world, console_error, emit, logged. cbn.
  destruct (signOut_error s) as [err|]; cbn; eexists; repeat split; reflexivity.
Qed.

Example logout_failure_keeps_user :
  fst (AuthProvider.logout {| AuthContext.user := Some ann; AuthContext.loading := false |}
         (offline_session (world_of quiet)))
  = Resolved {| AuthContext.user := Some ann; AuthContext.loading := false |}.
Proof. reflexivity. Qed.

(** [login] passes the provider's answer on and touches nothing else. *)
Lemma login_outcome (email password : string) (s : Session) :
  fst (AuthProvider.login email password s)
  = match signIn_error s email password with
    | Some err => Rejected err
    | None => Resolved tt
    end
  /\ world (snd (AuthProvider.login email password s)) = world s.
Proof.
  unfold AuthProvider.login, signInWithEmailAndPassword, bind_n, call, here, throw_n, ret_n.
  cbn. destruct (signIn_error s email password); split; reflexivity.
Qed.

(** ** The user panel *)

Lemma listing_members (m : gmap string Profile.t) (p : Profile.t) :
  In p (map snd (map_to_list m)) <-> exists uid, m !! uid = Some p.
Proof.
  rewrite in_map_iff. split.
  - intros [[uid q] [Hq Hin]]. cbn in Hq. subst q. exists uid.
    apply elem_of_map_to_list. apply list_elem_of_In. exact Hin.
  - intros [uid Hm]. exists (uid, p). split; [reflexivity|].
    apply list_elem_of_In. apply elem_of_map_to_list. exact Hm.
Qed.

Lemma refreshUsers_listing_ok (shown : list Profile.t) (s : Session) :
  getDocs_error s = None ->
  exists listed,
    fst (AdminPanel.refreshUsers shown s) = Resolved listed
    /\ forall p, In p listed <-> exists uid, users (db (world s)) !! uid = Some p.
Proof.
  intros H.
  unfold AdminPanel.refreshUsers, getDocs_users, try_catch_n, bind_n, call, here, throw_n,
    ret_n. cbn. rewrite H. cbn.
  eexists. split; [reflexivity|]. intros p. apply listing_members.
Qed.

(** X16.  Refreshing the user list never rejects and writes nothing.  When
    the listing succeeds the list holds the data of every profile document
    and of nothing else, one entry per document, and nothing is logged; when
    it fails the error is logged to the console and the list shown before is
    kept. *)
Theorem refreshUsers_outcome (shown : list Profile.t) (s : Session) :
  let s' := snd (AdminPanel.refreshUsers shown s) in
  exists listed,
    fst (AdminPanel.refreshUsers shown s) = Resolved listed
    /\ calls s' = (calls s ++ [CallGetUsers])%list
    /\ db (world s') = db (world s)
    /\ match getDocs_error s with
       | Some _ =>
           listed = shown
           /\ trace (world s')
              = (trace (world s) ++ [EvConsole "error" "Error fetching users:"])%list
       | None =>
           (forall p, In p listed <-> exists uid, users (db (world s)) !! uid = Some p)
           /\ List.length listed = size (users (db (world s)))
           /\ world s' = world s
       end.
Proof.
  intros s'. subst s'.
  unfold AdminPanel.refreshUsers, getDocs_users, try_catch_n, bind_n, call, here, throw_n,
    ret_n, lift, with_world, console_error, emit, logged. cbn.
  destruct (getDocs_error s) as [err|]; cbn; eexists;
    (split; [reflexivity|]); (split; [reflexivity|]); (split; [reflexivity|]).
  - split; reflexivity.
  - split; [intros p; apply listing_members|].
    split; [|reflexivity]. rewrite length_map. apply length_map_to_list.
Qed.

(** X17.  A user whose signup went through is in the next listing of the
    user panel, with the name and email given at signup. *)
Theorem signed_up_user_is_listed
  (name email password uid : string) (shown : list Profile.t) (w : World) (s : Session) :
  createUser_reply (ext w) email password = inr uid ->
  setDoc_error (ext w) = None ->
  getDocs_error s = None ->
  exists listed,
    fst (AdminPanel.refreshUsers shown
           (with_world (snd (AuthContext.signup name email password w)) s))
    = Resolved listed
    /\ In {| Profile.uid := uid; Profile.name := name; Profile.email := email;
             Profile.joinedAt := now_toISOString (ext w) |} listed.
Proof.
  intros Hcreate Hwrite Hlist.
  destruct (refreshUsers_listing_ok shown
              (with_world (snd (AuthContext.signup name email password w)) s) Hlist)
    as [listed [Hres Hmem]].
  exists listed. split; [exact Hres|].
  apply Hmem. exists uid.
  rewrite signup_run, Hcreate, Hwrite. cbn. apply lookup_insert_eq.
Qed.

Lemma signed_up_user_is_listed_witness :
  exists listed,
    fst (AdminPanel.refreshUsers []
           (with_world (snd (AuthContext.signup "Ann" "ann@example.org" "secret"
                               (world_of quiet)))
              (session_of (world_of quiet))))
    = Resolved listed
    /\ In {| Profile.uid := "uid-ann@example.org"; Profile.name := "Ann";
             Profile.email := "ann@example.org";
             Profile.joinedAt := "2024-01-01T10:00:00.000Z" |} listed.
Proof.
  exact (signed_up_user_is_listed "Ann" "ann@example.org" "secret" "uid-ann@example.org"
           [] (world_of quiet) (session_of (world_of quiet)) eq_refl eq_refl eq_refl).
Defined.

(** ** Deleting the key *)

(** X18.  When the admin declines the confirmation, the delete action does
    nothing more: no call to the store, no alert, the state as it was. *)
Theorem delete_declined (st : AdminDashboard.State) (s : Session) :
  confirm_reply (ext (world s))
    "Are you sure? This will break AI features until a new key is added." = false ->
  AdminPanel.handleDeleteGeminiKey st s
  = (Resolved st,
     with_world
       (logged [EvConfirm "Are you sure? This will break AI features until a new key is added."]
          (world s)) s).
Proof.
  intros H.
  unfold AdminPanel.handleDeleteGeminiKey, bind_n, lift, confirm, bind, emit, outside, ret.
  cbn. rewrite H. reflexivity.
Qed.

Lemma delete_declined_witness :
  fst (AdminPanel.handleDeleteGeminiKey (key_form "")
         (session_of (world_of
            {| VITE_GEMINI_API_KEY := None; API_KEY := None;
               getDoc_error := None; setDoc_error := None;
               createUser_reply := createUser_reply quiet;
               generateContent_reply := generateContent_reply quiet;
               model_reply := model_reply quiet;
               confirm_reply := fun _ => false;
               now_toLocaleDateString := ""; now_toLocaleTimeString := "";
               now_toISOString := "" |})))
  = Resolved (key_form "").
Proof.
  rewrite delete_declined; reflexivity.
Defined.

(** X19.  Once confirmed, the delete action makes one update call and never
    rejects; it ends with [keyLoading] off.  When the store accepts the
    update the key field is gone, the other documents are as before, the
    removal is announced, and from then on the resolver gives the
    environment default.  When the store refuses it, or the config document
    does not exist, the store is unchanged, the error alert is shown and the
    status is kept. *)
Theorem delete_outcome (st : AdminDashboard.State) (s : Session) :
  confirm_reply (ext (world s))
    "Are you sure? This will break AI features until a new key is added." = true ->
  let s' := snd (AdminPanel.handleDeleteGeminiKey st s) in
  exists st',
    fst (AdminPanel.handleDeleteGeminiKey st s) = Resolved st'
    /\ AdminDashboard.keyLoading st' = false
    /\ calls s' = (calls s ++ [CallDeleteKeyField])%list
    /\ match updateDoc_error s, settings_global_config (db (world s)) with
       | None, Some _ =>
           settings_global_config (db (world s')) = Some {| geminiApiKey := None |}
           /\ users (db (world s')) = users (db (world s))
           /\ alerts_shown (trace (world s'))
              = (alerts_shown (trace (world s)) ++ ["⚠️ API Key Removed"])%list
           /\ fst (GeminiService.getAIClient (world s'))
              = Resolved {| GeminiService.apiKey := env_default (ext (world s)) |}
       | _, _ =>
           db (world s') = db (world s)
           /\ alerts_shown (trace (world s'))
              = (alerts_shown (trace (world s)) ++ ["❌ Error removing key"])%list
           /\ AdminDashboard.geminiKeyStatus st' = AdminDashboard.geminiKeyStatus st
       end.
Proof.
  intros Hyes s'. subst s'.
  unfold AdminPanel.handleDeleteGeminiKey, updateDoc_deleteField.
  unfold bind_n at 1. unfold lift at 1.
  unfold confirm, bind, emit, outside, ret. cbn -[GeminiService.getAIClient].
  rewrite Hyes. cbn -[GeminiService.getAIClient].
  unfold try_catch_n, bind_n, call, here, throw_n, ret_n, lift, with_world,
    AdminDashboard.loadGlobalConfig, Store.getDoc_global_config, alert, console_error,
    set_db, try_catch, bind, emit, outside, throw, ret, logged.
  cbn -[GeminiService.getAIClient].
  destruct (updateDoc_error s) as [err|]; cbn -[GeminiService.getAIClient].
  - eexists. split; [reflexivity|]. split; [reflexivity|]. split; [reflexivity|].
    rewrite !alerts_shown_app. cbn. rewrite !app_nil_r.
    destruct (settings_global_config (db (world s))); repeat split; reflexivity.
  - destruct (settings_global_config (db (world s))) as [cfg|];
      cbn -[GeminiService.getAIClient].
    + destruct (getDoc_error (ext (world s))) as [err|] eqn:Hget;
        cbn -[GeminiService.getAIClient];
        eexists; (split; [reflexivity|]); (split; [reflexivity|]); (split; [reflexivity|]);
        (split; [reflexivity|]); (split; [reflexivity|]);
        rewrite !alerts_shown_app; cbn -[GeminiService.getAIClient]; rewrite !app_nil_r;
        (split; [reflexivity|]);
        rewrite getAIClient_run; unfold expected_key, config_read; cbn; rewrite Hget;
        reflexivity.
    + eexists. split; [reflexivity|]. split; [reflexivity|]. split; [reflexivity|].
      rewrite !alerts_shown_app. cbn. rewrite !app_nil_r. repeat split; reflexivity.
Qed.

Lemma delete_outcome_witness :
  fst (GeminiService.getAIClient
         (world (snd (AdminPanel.handleDeleteGeminiKey (key_form "")
                        (session_of
                           (with_config (Some {| geminiApiKey := Some "stored-key" |})
                              (world_of quiet)))))))
  = Resolved {| GeminiService.apiKey := "env-key" |}.
Proof.
  destruct (delete_outcome (key_form "")
              (session_of (with_config (Some {| geminiApiKey := Some "stored-key" |})
                             (world_of quiet))) eq_refl)
    as [st' [_ [_ [_ H]]]].
  cbn in H. exact (proj2 (proj2 (proj2 H))).
Defined.

Example delete_missing_document :
  let r := AdminPanel.handleDeleteGeminiKey (key_form "") (session_of (world_of quiet)) in
  fst r = Resolved (key_form "")
  /\ alerts_shown (trace (world (snd r))) = ["❌ Error removing key"]
  /\ db (world (snd r)) = empty_db.
Proof. cbv zeta. repeat split; reflexivity. Qed.

(** ** The broadcast form *)

(** The broadcast is guarded by emptiness alone.  With a non-empty
    title and a non-empty message the notification context is called once,
    with the title and the message exactly as typed (nothing is trimmed),
    the sending is announced and both fields are emptied; with an empty
    title or an empty message nothing is called, nothing is shown and the
    fields are kept. *)
Lemma handleSendNotification_outcome (notifTitle notifMsg : string) (s : Session) :
  AdminPanel.handleSendNotification notifTitle notifMsg s
  = match notifTitle, notifMsg with
    | String _ _, String _ _ =>
        (Resolved ("", ""),
         {| world := logged [EvAlert "Notification sent to all users."] (world s);
            signIn_error := signIn_error s;
            signOut_error := signOut_error s;
            getDocs_error := getDocs_error s;
            updateDoc_error := updateDoc_error s;
            calls := (calls s ++ [CallAddNotification notifTitle notifMsg])%list |})
    | _, _ => (Resolved (notifTitle, notifMsg), s)
    end.
Proof.
  unfold AdminPanel.handleSendNotification.
  destruct notifTitle as [|c r]; [reflexivity|].
  destruct notifMsg as [|c' r']; reflexivity.
Qed.

Example blank_title_is_broadcast :
  calls (snd (AdminPanel.handleSendNotification "  " "m" (session_of (world_of quiet))))
  = [CallAddNotification "  " "m"].
Proof. reflexivity. Qed.

(** ** Across the functions *)

(** X1.  An answer that has text and no three back-quotes in a row is
    returned to the caller exactly as the generation API gave it. *)
Theorem clean_answer_returned_as_is (i : Invocation) (w : World) (c : ascii) (r : string) :
  generateContent_reply (ext w) (expected_key w) (request_of (ext w) i)
  = Resolved (Some (String c r)) ->
  JS.includes "```" (String c r) = false ->
  fst (invoke i w) = Resolved (String c r).
Proof.
  intros Hreply Hclean. rewrite (invoke_returns i w _ Hreply).
  cbn [JS.or_default].
  unfold GeminiService.stripFences.
  rewrite (replace_all_absent "```html" "" (String c r)).
  - rewrite (replace_all_absent _ _ _ Hclean). reflexivity.
  - apply (includes_longer "```"); [reflexivity | exact Hclean].
Qed.

Lemma clean_answer_returned_as_is_witness :
  fst (invoke (GetHoroscopeReading sample_birth "en") (world_of quiet))
  = Resolved "<div>ok</div>".
Proof.
  exact (clean_answer_returned_as_is (GetHoroscopeReading sample_birth "en") (world_of quiet)
           "<" "div>ok</div>" eq_refl ltac:(vm_compute; reflexivity)).
Defined.

(** The cleanup comes after the fallback: an answer made of fences only
    gives the empty string, not the fallback. *)
Example fences_only_answer :
  fst (invoke (GetHoroscopeReading sample_birth "en")
         (world_of (answering (Some "```html```"))))
  = Resolved "".
Proof. vm_compute. reflexivity. Qed.

(** X20.  The delete-user action is advisory: the user list refreshed after
    it is the list refreshed before it. *)
Theorem deleted_user_still_listed (email : string) (shown : list Profile.t) (s : Session) :
  fst (AdminPanel.refreshUsers shown
         (with_world (snd (AdminDashboard.handleDeleteUser email (world s))) s))
  = fst (AdminPanel.refreshUsers shown s).
Proof.
  unfold AdminDashboard.handleDeleteUser, confirm, alert, bind, emit, outside, ret, logged.
  cbn.
  destruct (confirm_reply (ext (world s)) _); cbn;
    unfold AdminPanel.refreshUsers, getDocs_users, try_catch_n, bind_n, call, here, throw_n,
      ret_n, lift, with_world; cbn;
    destruct (getDocs_error s); reflexivity.
Qed.
